(** * Carpool front end: the sign-up flow and the dashboard

    A shallow embedding of [SignUpPage], [ProfileForm] and [Dashboard].

    - React state is a record with one field per [useState] cell; a handler
      reads the values its closure captured at render time (the snapshot it
      is given) and writes through the setters.
    - The collaborators (identity provider, bot-check widget, HTTP API,
      router) are not part of the program.  Every call to one of them is
      recorded in a trace of [Effect]s, and what the call answers is an
      argument of the handler (an [Outcome]: the promise resolves or rejects,
      the call returns or throws).
    - A handler runs to completion before the next event is dispatched;
      console output is not recorded. *)

From Stdlib Require Import String Ascii List Bool Arith Lia.
Import ListNotations.
Local Open Scope string_scope.
Local Open Scope list_scope.

Set Implicit Arguments.

(** ** JavaScript values, errors and completions *)

Module Js.

(** A number is kept through the two observations the program makes of
    one: its truthiness ([0], [-0] and [NaN] are falsy) and the text
    [ToString] gives for it. *)
Record JsNumber := mkNumber { num_truthy : bool; num_text : string }.

(** What [response.json()] can resolve to. An object is the list of its own
    properties, each key once. *)
#[warnings="-register-all"]
Inductive JsValue :=
| JUndefined
| JNull
| JBool (b : bool)
| JNum (n : JsNumber)
| JStr (s : string)
| JArr (items : list JsValue)
| JObj (fields : list (string * JsValue)).

(** A thrown [Error] object, observed through [err.message]. *)
Record JsError := mkError { message : string }.

(** How a call ends: it returns (the promise resolves) or it throws (the
    promise rejects). *)
Inductive Outcome (A : Type) :=
| Returns (a : A)
| Throws (e : JsError).
Arguments Throws {A} e.

Definition nonempty (s : string) : bool :=
  match s with EmptyString => false | String _ _ => true end.

(** [ToBoolean]. *)
Definition truthy (v : JsValue) : bool :=
  match v with
  | JUndefined | JNull => false
  | JBool b => b
  | JNum n => num_truthy n
  | JStr s => nonempty s
  | JArr _ | JObj _ => true
  end.

Fixpoint join (sep : string) (l : list string) : string :=
  match l with
  | [] => ""
  | [s] => s
  | s :: rest => (s ++ sep ++ join sep rest)%string
  end.

(** [ToString]; an array prints as [join(",")], where [null] and
    [undefined] elements print as the empty string. *)
Fixpoint ToString (v : JsValue) : string :=
  match v with
  | JUndefined => "undefined"
  | JNull => "null"
  | JBool true => "true"
  | JBool false => "false"
  | JNum n => num_text n
  | JStr s => s
  | JArr items =>
      join "," (map (fun e => match e with
                              | JUndefined | JNull => ""
                              | _ => ToString e
                              end) items)
  | JObj _ => "[object Object]"
  end.

Fixpoint lookup (key : string) (fields : list (string * JsValue)) : option JsValue :=
  match fields with
  | [] => None
  | (k, v) :: rest => if String.eqb k key then Some v else lookup key rest
  end.

(** [v.key] for a key that no prototype defines: reading a property of
    [null] or [undefined] throws the engine's [TypeError]. *)
Definition getProperty (type_error : JsError) (v : JsValue) (key : string)
  : Outcome JsValue :=
  match v with
  | JUndefined | JNull => Throws type_error
  | JObj fields =>
      match lookup key fields with
      | Some x => Returns x
      | None => Returns JUndefined
      end
  | _ => Returns JUndefined
  end.

(** [a || b] on strings. *)
Definition or_else (a b : string) : string := if nonempty a then a else b.

(** [String.prototype.startsWith]. *)
Definition startsWith (s search : string) : bool := String.prefix search s.

(** The class [\d]; [\D] is its complement. *)
Definition is_digit (c : ascii) : bool :=
  let n := nat_of_ascii c in ((48 <=? n) && (n <=? 57))%nat.

(** [s.replace(/\D/g, '')]. *)
Fixpoint replace_non_digits (s : string) : string :=
  match s with
  | EmptyString => EmptyString
  | String c rest =>
      if is_digit c then String c (replace_non_digits rest)
      else replace_non_digits rest
  end.

Fixpoint all_digits (s : string) : bool :=
  match s with
  | EmptyString => true
  | String c rest => is_digit c && all_digits rest
  end.

End Js.
Import Js.

(** ** Collaborators and the trace of calls made to them *)

(** A [RecaptchaVerifier] instance, named by the order of its creation. *)
Record RecaptchaVerifier := mkVerifier { widget_id : nat }.

(** The handle [signInWithPhoneNumber] resolves to. *)
Record ConfirmationResult := mkConfirmation { verificationId : string }.

Record FormData := mkForm {
  name : string;
  email : string;
  address : string;
  vehicle : string;
  kids : string
}.

Inductive Effect :=
| PreventDefault
| RecaptchaClear (v : RecaptchaVerifier)
| RecaptchaNew (container : string)
| SignInWithPhoneNumber (phoneNumber : string) (appVerifier : option RecaptchaVerifier)
| Confirm (handle : ConfirmationResult) (verificationCode : string)
| GetIdToken
| Fetch (url : string) (authorization : string) (body : FormData)
| ResponseJson
| RouterPush (path : string)
| SignOut.

(** Calls that reach the identity provider over the network. *)
Definition is_provider_call (e : Effect) : bool :=
  match e with
  | SignInWithPhoneNumber _ _ | Confirm _ _ | GetIdToken | SignOut => true
  | _ => false
  end.

Definition is_fetch (e : Effect) : bool :=
  match e with Fetch _ _ _ => true | _ => false end.

Definition is_navigation (e : Effect) : bool :=
  match e with RouterPush _ => true | _ => false end.

(** ** Handlers as computations: state, trace and exceptions *)

Section Handler.
Variable S : Type.

Definition M (A : Type) : Type :=
  S -> list Effect -> Outcome A * S * list Effect.

Definition ret {A} (a : A) : M A := fun s t => (Returns a, s, t).

Definition bind {A B} (m : M A) (k : A -> M B) : M B :=
  fun s t =>
    match m s t with
    | (Returns a, s', t') => k a s' t'
    | (Throws e, s', t') => (Throws e, s', t')
    end.

Definition throw {A} (e : JsError) : M A := fun s t => (Throws e, s, t).

Definition emit (e : Effect) : M unit := fun s t => (Returns tt, s, (t ++ [e])%list).

Definition gets {A} (f : S -> A) : M A := fun s t => (Returns (f s), s, t).

Definition modify (f : S -> S) : M unit := fun s t => (Returns tt, f s, t).

(** The answer of a collaborator. *)
Definition answer {A} (o : Outcome A) : M A := fun s t => (o, s, t).

(** [try { body } catch (err) { handler err }]. *)
Definition try_catch {A} (body : M A) (handler : JsError -> M A) : M A :=
  fun s t =>
    match body s t with
    | (Returns a, s', t') => (Returns a, s', t')
    | (Throws e, s', t') => handler e s' t'
    end.

(** [try { body } finally { fin }]: [fin] always runs; the completion is
    that of [body] unless [fin] itself throws. *)
Definition try_finally {A} (body : M A) (fin : M unit) : M A :=
  fun s t =>
    match body s t with
    | (r, s', t') =>
        match fin s' t' with
        | (Returns _, s'', t'') => (r, s'', t'')
        | (Throws e, s'', t'') => (Throws e, s'', t'')
        end
    end.

Definition when (b : bool) (m : M unit) : M unit := if b then m else ret tt.

End Handler.

Arguments ret {S A} a.
Arguments bind {S A B} m k.
Arguments throw {S A} e.
Arguments emit {S} e.
Arguments gets {S A} f.
Arguments modify {S} f.
Arguments answer {S A} o.
Arguments try_catch {S A} body handler.
Arguments try_finally {S A} body fin.
Arguments when {S} b m.

Declare Scope handler_scope.
Delimit Scope handler_scope with handler.
Notation "x <- m ;; k" := (bind m (fun x => k))
  (at level 61, m at next level, right associativity) : handler_scope.
Notation "m ;; k" := (bind m (fun _ => k))
  (at level 61, right associativity) : handler_scope.
Local Open Scope handler_scope.

(** ** [SignUpPage] *)

Module SignUpPage.

Inductive Step := StepPhone | StepCode | StepProfile.

(** The [useState] cells of [SignUpPage], with their initial values in
    [initial]. *)
Record State := mkState {
  phone : string;
  code : string;
  confirmation : option ConfirmationResult;
  step : Step;
  idToken : option string;
  loading : bool;
  error : option string
}.

Definition initial : State :=
  {| phone := ""; code := ""; confirmation := None; step := StepPhone;
     idToken := None; loading := false; error := None |}.

(** The page together with what outlives it: the global
    [window.recaptchaVerifier], and the widget instances that exist. An
    instance is [live] from the return of its constructor to the return of
    [clear()] on it; [created] counts the constructors that returned. *)
Record World := mkWorld {
  ui : State;
  recaptchaVerifier : option RecaptchaVerifier;
  live : list RecaptchaVerifier;
  created : nat;
  mounted : bool
}.

Definition fresh_world : World :=
  {| ui := initial; recaptchaVerifier := None; live := []; created := 0;
     mounted := true |}.

Definition set_ui (f : State -> State) (w : World) : World :=
  {| ui := f (ui w); recaptchaVerifier := recaptchaVerifier w;
     live := live w; created := created w; mounted := mounted w |}.

Definition set_recaptchaVerifier (v : option RecaptchaVerifier) (w : World) : World :=
  {| ui := ui w; recaptchaVerifier := v;
     live := live w; created := created w; mounted := mounted w |}.

Definition set_mounted (b : bool) (w : World) : World :=
  {| ui := ui w; recaptchaVerifier := recaptchaVerifier w;
     live := live w; created := created w; mounted := b |}.

Definition verifier_eqb (a b : RecaptchaVerifier) : bool :=
  Nat.eqb (widget_id a) (widget_id b).

Definition torn_down (v : RecaptchaVerifier) (w : World) : World :=
  {| ui := ui w; recaptchaVerifier := recaptchaVerifier w;
     live := filter (fun x => negb (verifier_eqb x v)) (live w);
     created := created w; mounted := mounted w |}.

Definition instantiated (w : World) : World :=
  {| ui := ui w; recaptchaVerifier := recaptchaVerifier w;
     live := mkVerifier (created w) :: live w;
     created := S (created w); mounted := mounted w |}.

Definition setPhone (v : string) : M World unit :=
  modify (set_ui (fun u =>
    {| phone := v; code := code u; confirmation := confirmation u;
       step := step u; idToken := idToken u; loading := loading u;
       error := error u |})).

Definition setCode (v : string) : M World unit :=
  modify (set_ui (fun u =>
    {| phone := phone u; code := v; confirmation := confirmation u;
       step := step u; idToken := idToken u; loading := loading u;
       error := error u |})).

Definition setConfirmation (v : option ConfirmationResult) : M World unit :=
  modify (set_ui (fun u =>
    {| phone := phone u; code := code u; confirmation := v;
       step := step u; idToken := idToken u; loading := loading u;
       error := error u |})).

Definition setStep (v : Step) : M World unit :=
  modify (set_ui (fun u =>
    {| phone := phone u; code := code u; confirmation := confirmation u;
       step := v; idToken := idToken u; loading := loading u;
       error := error u |})).

Definition setIdToken (v : option string) : M World unit :=
  modify (set_ui (fun u =>
    {| phone := phone u; code := code u; confirmation := confirmation u;
       step := step u; idToken := v; loading := loading u;
       error := error u |})).

Definition setLoading (v : bool) : M World unit :=
  modify (set_ui (fun u =>
    {| phone := phone u; code := code u; confirmation := confirmation u;
       step := step u; idToken := idToken u; loading := v;
       error := error u |})).

Definition setError (v : option string) : M World unit :=
  modify (set_ui (fun u =>
    {| phone := phone u; code := code u; confirmation := confirmation u;
       step := step u; idToken := idToken u; loading := loading u;
       error := v |})).

(** *** The bot-check widget *)

(** [v.clear()]: the instance is torn down when the call returns. *)
Definition clear (v : RecaptchaVerifier) (result : Outcome unit) : M World unit :=
  emit (RecaptchaClear v) ;;
  answer result ;;
  modify (torn_down v).

(** [new RecaptchaVerifier(auth, "recaptcha-container", {...})]. *)
Definition newRecaptchaVerifier (result : Outcome unit) : M World RecaptchaVerifier :=
  emit (RecaptchaNew "recaptcha-container") ;;
  answer result ;;
  n <- gets created ;;
  modify instantiated ;;
  ret (mkVerifier n).

(** What the widget's two calls answer during one [setupRecaptcha]. *)
Record WidgetEnv := mkWidgetEnv {
  clear_result : Outcome unit;
  new_result : Outcome unit
}.

Definition setupRecaptcha (env : WidgetEnv) : M World RecaptchaVerifier :=
  try_catch
    (stored <- gets recaptchaVerifier ;;
     match stored with
     | Some v => clear v (clear_result env)
     | None => ret tt
     end ;;
     verifier <- newRecaptchaVerifier (new_result env) ;;
     modify (set_recaptchaVerifier (Some verifier)) ;;
     ret verifier)
    (fun error => throw error).

(** The ['expired-callback'] and ['error-callback'] given to the widget. *)
Definition expired_callback : M World unit :=
  modify (set_recaptchaVerifier None).

Definition error_callback (error : JsError) : M World unit :=
  modify (set_recaptchaVerifier None).

(** The cleanup function returned by the mount effect. *)
Definition unmount_cleanup (result : Outcome unit) : M World unit :=
  stored <- gets recaptchaVerifier ;;
  match stored with
  | Some v => clear v result
  | None => ret tt
  end.

(** *** Phone step *)

Definition formattedPhone (phone : string) : string :=
  if startsWith phone "+" then phone else ("+1" ++ phone)%string.

Definition signInWithPhoneNumber (phoneNumber : string)
  (appVerifier : option RecaptchaVerifier)
  (result : Outcome ConfirmationResult) : M World ConfirmationResult :=
  emit (SignInWithPhoneNumber phoneNumber appVerifier) ;;
  answer result.

Record SendCodeEnv := mkSendCodeEnv {
  widget : WidgetEnv;
  signIn_result : Outcome ConfirmationResult
}.

Definition sendCode (snap : State) (env : SendCodeEnv) : M World unit :=
  emit PreventDefault ;;
  setLoading true ;;
  setError None ;;
  try_finally
    (try_catch
       (setupRecaptcha (widget env) ;;
        appVerifier <- gets recaptchaVerifier ;;
        let formatted := formattedPhone (phone snap) in
        result <- signInWithPhoneNumber formatted appVerifier (signIn_result env) ;;
        setConfirmation (Some result) ;;
        setStep StepCode)
       (fun err =>
          setError (Some ("Failed to send verification code: "
                          ++ or_else (message err) "Unknown error")%string)))
    (setLoading false).

(** *** Code step *)

(** [result.user]: what its [getIdToken()] answers. *)
Record UserCredential := mkCredential { getIdToken_result : Outcome string }.

Record VerifyEnv := mkVerifyEnv { confirm_result : Outcome UserCredential }.

Definition confirm (c : ConfirmationResult) (verificationCode : string)
  (result : Outcome UserCredential) : M World UserCredential :=
  emit (Confirm c verificationCode) ;;
  answer result.

Definition getIdToken (result : UserCredential) : M World string :=
  emit GetIdToken ;;
  answer (getIdToken_result result).

Definition verifyCode (snap : State) (env : VerifyEnv) : M World unit :=
  emit PreventDefault ;;
  match confirmation snap with
  | None => ret tt
  | Some c =>
      setLoading true ;;
      setError None ;;
      try_finally
        (try_catch
           (result <- confirm c (code snap) (confirm_result env) ;;
            token <- getIdToken result ;;
            setIdToken (Some token) ;;
            setStep StepProfile)
           (fun err =>
              setError (Some "Invalid verification code. Please try again.")))
        (setLoading false)
  end.

(** The [onClick] of the "Change number" button. *)
Definition changeNumber : M World unit := setStep StepPhone.

(** *** Profile step *)

Record Response := mkResponse {
  ok : bool;
  json_result : Outcome JsValue
}.

(** [type_error] is the [TypeError] the engine raises when a property of
    [null] is read. *)
Record SubmitEnv := mkSubmitEnv {
  fetch_result : Outcome Response;
  type_error : JsError
}.

Definition submit_url : string :=
  "https://carpool-backend-ymsm.onrender.com/submit-profile".

Definition fetch (authorization : string) (body : FormData)
  (result : Outcome Response) : M World Response :=
  emit (Fetch submit_url authorization body) ;;
  answer result.

Definition json (response : Response) : M World JsValue :=
  emit ResponseJson ;;
  answer (json_result response).

(** [!idToken]: [null] and the empty string are falsy. *)
Definition falsy_token (t : option string) : bool :=
  match t with
  | None => true
  | Some s => negb (nonempty s)
  end.

Definition token_text (t : option string) : string :=
  match t with
  | None => "null"
  | Some s => s
  end.

(** [new Error(data.detail || 'Failed to save profile')]. *)
Definition detail_error (env : SubmitEnv) (data : JsValue) : M World JsError :=
  detail <- answer (getProperty (type_error env) data "detail") ;;
  ret (mkError (ToString (if truthy detail then detail
                          else JStr "Failed to save profile"))).

Definition handleProfileSubmit (snap : State) (formData : FormData)
  (env : SubmitEnv) : M World unit :=
  try_finally
    (try_catch
       (setLoading true ;;
        setError None ;;
        when (falsy_token (idToken snap))
          (throw (mkError
            "No authentication token found. Please complete phone verification.")) ;;
        response <- fetch ("Bearer " ++ token_text (idToken snap))%string formData
                      (fetch_result env) ;;
        data <- json response ;;
        when (negb (ok response))
          (e <- detail_error env data ;; throw e) ;;
        emit (RouterPush "/dashboard"))
       (fun err =>
          setError (Some (or_else (message err)
                            "Failed to save profile. Please try again."))))
    (setLoading false).

(** [ProfileForm]'s [handleSubmit], with [onSubmit] bound to
    [handleProfileSubmit]. *)
Definition handleSubmit (snap : State) (form : FormData) (env : SubmitEnv)
  : M World unit :=
  emit PreventDefault ;;
  handleProfileSubmit snap form env.

(** *** Events of the page

    A form is submitted only when its controls allow it: the submit button
    is [disabled] while [loading], and an empty [required] input blocks the
    browser's submit event. Each form exists only in its own step. *)

Definition required (value : string) : bool := nonempty value.

Definition step_eqb (a b : Step) : bool :=
  match a, b with
  | StepPhone, StepPhone | StepCode, StepCode | StepProfile, StepProfile => true
  | _, _ => false
  end.

(** [<form onSubmit={sendCode}>] around the [required] phone input. *)
Definition phoneFormSubmit (snap : State) (env : SendCodeEnv) : M World unit :=
  when (negb (loading snap) && required (phone snap)) (sendCode snap env).

(** [<form onSubmit={verifyCode}>] around the [required] code input. *)
Definition codeFormSubmit (snap : State) (env : VerifyEnv) : M World unit :=
  when (negb (loading snap) && required (code snap)) (verifyCode snap env).

(** [<form onSubmit={handleSubmit}>] of [ProfileForm], whose name and
    address inputs are [required]. *)
Definition profileFormSubmit (snap : State) (form : FormData) (env : SubmitEnv)
  : M World unit :=
  when (negb (loading snap) && required (name form) && required (address form))
    (handleSubmit snap form env).

Definition phoneChange (value : string) : M World unit :=
  setPhone (replace_non_digits value).

Definition codeChange (value : string) : M World unit :=
  setCode (replace_non_digits value).

Definition is_live (v : RecaptchaVerifier) (w : World) : bool :=
  existsb (verifier_eqb v) (live w).

Definition remount (w : World) : World :=
  {| ui := initial; recaptchaVerifier := recaptchaVerifier w;
     live := live w; created := created w; mounted := true |}.

Inductive Event :=
| PhoneInput (value : string)
| PhoneSubmit (env : SendCodeEnv)
| CodeInput (value : string)
| CodeSubmit (env : VerifyEnv)
| ChangeNumber
| ProfileSubmit (form : FormData) (env : SubmitEnv)
| RecaptchaExpired (v : RecaptchaVerifier)
| RecaptchaError (v : RecaptchaVerifier) (error : JsError)
| Unmount (clear_result : Outcome unit)
| Mount.

Definition in_step (s : Step) (w : World) : bool :=
  mounted w && step_eqb (step (ui w)) s.

(** What an event runs in world [w]; an event whose control is not on the
    page runs nothing. A widget calls back only while it is live. *)
Definition handle (ev : Event) (w : World) : M World unit :=
  match ev with
  | PhoneInput value => when (in_step StepPhone w) (phoneChange value)
  | PhoneSubmit env => when (in_step StepPhone w) (phoneFormSubmit (ui w) env)
  | CodeInput value => when (in_step StepCode w) (codeChange value)
  | CodeSubmit env => when (in_step StepCode w) (codeFormSubmit (ui w) env)
  | ChangeNumber => when (in_step StepCode w) changeNumber
  | ProfileSubmit form env =>
      when (in_step StepProfile w) (profileFormSubmit (ui w) form env)
  | RecaptchaExpired v => when (is_live v w) expired_callback
  | RecaptchaError v error => when (is_live v w) (error_callback error)
  | Unmount result =>
      when (mounted w)
        (try_finally (unmount_cleanup result) (modify (set_mounted false)))
  | Mount => when (negb (mounted w)) (modify remount)
  end.

Definition run {A} (m : M World A) (w : World) : World * list Effect :=
  match m w [] with
  | (_, w', t) => (w', t)
  end.

Definition dispatch (w : World) (ev : Event) : World := fst (run (handle ev w) w).

Definition run_events (w : World) (evs : list Event) : World :=
  fold_left dispatch evs w.


End SignUpPage.

(** ** [Dashboard] *)

Module Dashboard.

Record UserProfile := mkProfile {
  name : string;
  email : string;
  address : string;
  vehicle : string;
  kids : string
}.

Record State := mkState {
  userProfile : option UserProfile;
  loading : bool;
  error : option string
}.

Definition initial : State :=
  {| userProfile := None; loading := true; error := None |}.

Definition setUserProfile (v : option UserProfile) : M State unit :=
  modify (fun s => {| userProfile := v; loading := loading s; error := error s |}).

Definition setLoading (v : bool) : M State unit :=
  modify (fun s => {| userProfile := userProfile s; loading := v; error := error s |}).

Definition setError (v : option string) : M State unit :=
  modify (fun s => {| userProfile := userProfile s; loading := loading s; error := v |}).

(** The provider's user, observed through [user.email]. *)
Record User := mkUser { user_email : option string }.

Definition email_or_empty (u : User) : string :=
  match user_email u with
  | Some e => e
  | None => ""
  end.

(** The listener given to [onAuthStateChanged]. *)
Definition authStateChanged (user : option User) : M State unit :=
  match user with
  | None => emit (RouterPush "/signin")
  | Some u =>
      try_finally
        (try_catch
           (setUserProfile (Some {| name := "John Doe";
                                    email := email_or_empty u;
                                    address := "123 Main St";
                                    vehicle := "Toyota Camry";
                                    kids := "2" |}))
           (fun err => setError (Some "Failed to load user profile")))
        (setLoading false)
  end.

Definition signOut (result : Outcome unit) : M State unit :=
  emit SignOut ;;
  answer result.

Definition handleSignOut (signOut_result : Outcome unit) : M State unit :=
  try_catch
    (signOut signOut_result ;;
     emit (RouterPush "/"))
    (fun error => setError (Some "Failed to sign out")).

Inductive Control := RetryButton | SignOutButton.

(** The three returns of the component. *)
Inductive View :=
| Spinner
| ErrorPanel (message : string)
| ProfilePage (profile : option UserProfile).

Definition render (s : State) : View :=
  if loading s then Spinner
  else match error s with
       | Some msg => if nonempty msg then ErrorPanel msg
                     else ProfilePage (userProfile s)
       | None => ProfilePage (userProfile s)
       end.

Definition controls (v : View) : list Control :=
  match v with
  | Spinner => []
  | ErrorPanel _ => [RetryButton]
  | ProfilePage _ => [SignOutButton]
  end.

Definition run {A} (m : M State A) (s : State) : State * list Effect :=
  match m s [] with
  | (_, s', t) => (s', t)
  end.

End Dashboard.

(** ** Vocabulary of the statements *)

Definition is_challenge_request (e : Effect) : bool :=
  match e with SignInWithPhoneNumber _ _ => true | _ => false end.

(** The world a computation ends in, whatever its completion. *)
Definition final {S A : Type} (r : Outcome A * S * list Effect) : S := snd (fst r).

(** [m] maintains the invariant [P], from every starting trace. *)
Definition preserves {S A : Type} (P : S -> Prop) (m : M S A) : Prop :=
  forall s t, P s -> P (final (m s t)).

(** Both text inputs hold decimal digits only. *)
Definition digits_only (w : SignUpPage.World) : Prop :=
  all_digits (SignUpPage.phone (SignUpPage.ui w)) = true /\
  all_digits (SignUpPage.code (SignUpPage.ui w)) = true.


(** The [detail] member of a response body, when the body is a JSON object
    that has one. *)
Definition body_detail (r : SignUpPage.Response) : option JsValue :=
  match SignUpPage.json_result r with
  | Returns (JObj fields) => lookup "detail" fields
  | _ => None
  end.

(** Sample answers of the collaborators, used in the concrete runs. *)
Definition challenge_issued : SignUpPage.SendCodeEnv :=
  SignUpPage.mkSendCodeEnv
    (SignUpPage.mkWidgetEnv (Returns tt) (Returns tt))
    (Returns (mkConfirmation "vid-1")).

Definition code_accepted : SignUpPage.VerifyEnv :=
  SignUpPage.mkVerifyEnv (Returns (SignUpPage.mkCredential (Returns "token-1"))).

Definition jane : FormData :=
  {| name := "Jane"; email := ""; address := "1 Elm St"; vehicle := ""; kids := "" |}.

Definition answered (r : SignUpPage.Response) : SignUpPage.SubmitEnv :=
  SignUpPage.mkSubmitEnv (Returns r)
    (mkError "Cannot read properties of null (reading 'detail')").

Definition at_code_step : SignUpPage.World :=
  SignUpPage.run_events SignUpPage.fresh_world
    [SignUpPage.PhoneInput "9876543210"; SignUpPage.PhoneSubmit challenge_issued].

Definition at_profile_step : SignUpPage.World :=
  SignUpPage.run_events at_code_step
    [SignUpPage.CodeInput "123456"; SignUpPage.CodeSubmit code_accepted].

(** A gateway's error page: a non-success response whose body is not JSON. *)
Definition html_error_page : SignUpPage.Response :=
  SignUpPage.mkResponse false
    (Throws (mkError "Unexpected token < in JSON at position 0")).

(** A non-success response whose [detail] is the empty string. *)
Definition blank_detail : SignUpPage.Response :=
  SignUpPage.mkResponse false (Returns (JObj [("detail", JStr "")])).

Definition email_used : SignUpPage.Response :=
  SignUpPage.mkResponse false (Returns (JObj [("detail", JStr "Email already used")])).

(** The error on display after Jane's profile was answered with [r]. *)
Definition shown_error (r : SignUpPage.Response) : option string :=
  SignUpPage.error (SignUpPage.ui (fst
    (SignUpPage.run
       (SignUpPage.handleProfileSubmit (SignUpPage.ui at_profile_step) jane (answered r))
       at_profile_step))).





(** The dashboard once the provider has reported a signed-in user. *)
Definition signed_in : Dashboard.State :=
  fst (Dashboard.run
         (Dashboard.authStateChanged
            (Some (Dashboard.mkUser (Some "jane@example.org"))))
         Dashboard.initial).

(** ** [ProfileForm]: the five inputs and their state *)

Module ProfileForm.

(** The [name] attributes of the inputs, as the [fields] table lists them. *)
Inductive FieldName := FName | FEmail | FAddress | FVehicle | FKids.

Record Field := mkField {
  field_name : FieldName;
  label : string;
  input_type : string;
  required : bool
}.

Definition fields : list Field :=
  [ mkField FName "Full Name" "text" true;
    mkField FEmail "Email" "email" false;
    mkField FAddress "Address" "text" true;
    mkField FVehicle "Vehicle Details" "text" false;
    mkField FKids "Number of Kids" "number" false ].

(** The initial value of the [form] cell. *)
Definition initial : FormData :=
  {| name := ""; email := ""; address := ""; vehicle := ""; kids := "" |}.

(** [form[name]]. *)
Definition get (f : FieldName) (form : FormData) : string :=
  match f with
  | FName => name form
  | FEmail => email form
  | FAddress => address form
  | FVehicle => vehicle form
  | FKids => kids form
  end.

(** [handleChange]: [setForm(prev => ({...prev, [name]: value}))]. *)
Definition handleChange (f : FieldName) (value : string) (prev : FormData) : FormData :=
  match f with
  | FName => {| name := value; email := email prev; address := address prev;
                vehicle := vehicle prev; kids := kids prev |}
  | FEmail => {| name := name prev; email := value; address := address prev;
                 vehicle := vehicle prev; kids := kids prev |}
  | FAddress => {| name := name prev; email := email prev; address := value;
                   vehicle := vehicle prev; kids := kids prev |}
  | FVehicle => {| name := name prev; email := email prev; address := address prev;
                   vehicle := value; kids := kids prev |}
  | FKids => {| name := name prev; email := email prev; address := address prev;
                vehicle := vehicle prev; kids := value |}
  end.

(** The form after a sequence of change events, oldest first. *)
Definition typed (changes : list (FieldName * string)) (form : FormData) : FormData :=
  fold_left (fun acc c => handleChange (fst c) (snd c) acc) changes form.

Definition field_eqb (a b : FieldName) : bool :=
  match a, b with
  | FName, FName | FEmail, FEmail | FAddress, FAddress
  | FVehicle, FVehicle | FKids, FKids => true
  | _, _ => false
  end.

(** The last value typed into [f], if any. *)
Fixpoint last_typed (f : FieldName) (changes : list (FieldName * string)) : option string :=
  match changes with
  | [] => None
  | (g, v) :: rest =>
      match last_typed f rest with
      | Some later => Some later
      | None => if field_eqb g f then Some v else None
      end
  end.


End ProfileForm.

(** ** What [SignUpPage] renders *)

Module PageView.

Inductive Form :=
| PhoneForm (prefix value submit : string) (disabled : bool)
| CodeForm (value hint submit : string) (disabled : bool)
| ProfileFormView (token : option string) (submit : string) (disabled : bool).

Record View := mkView {
  heading : string;
  banner : option string;
  forms : list Form
}.

(** [{cond && "text"}] inside an element. *)
Definition shown (cond : bool) (text : string) : string :=
  if cond then text else "".

(** [{cond && <form .../>}]. *)
Definition shown_form (cond : bool) (f : Form) : list Form :=
  if cond then [f] else [].

Definition render (s : SignUpPage.State) : View :=
  let at_step := SignUpPage.step_eqb (SignUpPage.step s) in
  let busy := SignUpPage.loading s in
  {| heading :=
       (shown (at_step SignUpPage.StepPhone) "Sign up with your phone number"
        ++ shown (at_step SignUpPage.StepCode) "Enter verification code"
        ++ shown (at_step SignUpPage.StepProfile) "Complete your profile")%string;
     banner :=
       match SignUpPage.error s with
       | Some msg => if nonempty msg then Some msg else None
       | None => None
       end;
     forms :=
       shown_form (at_step SignUpPage.StepPhone)
         (PhoneForm "+1" (SignUpPage.phone s)
            (if busy then "Sending..." else "Send Verification Code") busy)
       ++ shown_form (at_step SignUpPage.StepCode)
            (CodeForm (SignUpPage.code s)
               ("We've sent a verification code to +91" ++ SignUpPage.phone s)%string
               (if busy then "Verifying..." else "Verify Code") busy)
       ++ shown_form (at_step SignUpPage.StepProfile)
            (ProfileFormView (SignUpPage.idToken s)
               (if busy then "Saving..." else "Save Profile") busy) |}.


End PageView.

(** ** Events of the dashboard *)

Module DashboardRuns.

Definition control_eqb (a b : Dashboard.Control) : bool :=
  match a, b with
  | Dashboard.RetryButton, Dashboard.RetryButton
  | Dashboard.SignOutButton, Dashboard.SignOutButton => true
  | _, _ => false
  end.

Definition offers (c : Dashboard.Control) (s : Dashboard.State) : bool :=
  existsb (control_eqb c) (Dashboard.controls (Dashboard.render s)).

Inductive Event :=
| AuthStateChanged (user : option Dashboard.User)
| SignOutClick (signOut_result : Outcome unit)
| RetryClick.

(** A button can be clicked only in the view that has it. Retry calls
    [window.location.reload()]: the page starts again from its initial
    state. *)
Definition handle (ev : Event) (s : Dashboard.State) : M Dashboard.State unit :=
  match ev with
  | AuthStateChanged user => Dashboard.authStateChanged user
  | SignOutClick result =>
      when (offers Dashboard.SignOutButton s) (Dashboard.handleSignOut result)
  | RetryClick =>
      when (offers Dashboard.RetryButton s) (modify (fun _ => Dashboard.initial))
  end.

Definition dispatch (s : Dashboard.State) (ev : Event) : Dashboard.State :=
  fst (Dashboard.run (handle ev s) s).

Definition run_events (s : Dashboard.State) (evs : list Event) : Dashboard.State :=
  fold_left dispatch evs s.

End DashboardRuns.

(** ** Further vocabulary *)

(** The busy flag is down, a session token is held exactly in the [profile]
    step, and a verification handle is held wherever the flow has left the
    [phone] step. *)
Definition flow_consistent (w : SignUpPage.World) : Prop :=
  SignUpPage.loading (SignUpPage.ui w) = false /\
  (SignUpPage.step (SignUpPage.ui w) = SignUpPage.StepProfile <->
   SignUpPage.idToken (SignUpPage.ui w) <> None) /\
  (SignUpPage.step (SignUpPage.ui w) <> SignUpPage.StepPhone ->
   SignUpPage.confirmation (SignUpPage.ui w) <> None).

Definition is_json_read (e : Effect) : bool :=
  match e with ResponseJson => true | _ => false end.


(** The text [sendCode] displays for a failure [e]. *)
Definition send_failure (e : JsError) : string :=
  ("Failed to send verification code: " ++ or_else (message e) "Unknown error")%string.

(** The dashboard shows no error, or the sign-out failure. *)
Definition dashboard_error_known (s : Dashboard.State) : Prop :=
  Dashboard.error s = None \/ Dashboard.error s = Some "Failed to sign out".

(** The profile on the dashboard, when there is one, is the placeholder. *)
Definition dashboard_profile_placeholder (s : Dashboard.State) : Prop :=
  forall p, Dashboard.userProfile s = Some p ->
    Dashboard.name p = "John Doe" /\ Dashboard.address p = "123 Main St" /\
    Dashboard.vehicle p = "Toyota Camry" /\ Dashboard.kids p = "2".

(** The provider reports a signed-in user. *)
Definition reports_user (ev : DashboardRuns.Event) : bool :=
  match ev with
  | DashboardRuns.AuthStateChanged (Some _) => true
  | _ => false
  end.

(** ** Invariants of computations *)

Section Preservation.
Variable S : Type.
Variable P : S -> Prop.

Lemma preserves_ret A (a : A) : preserves P (ret (S := S) a).
Proof. intros s t H; exact H. Qed.

Lemma preserves_throw A (e : JsError) : preserves P (throw (S := S) (A := A) e).
Proof. intros s t H; exact H. Qed.

Lemma preserves_emit (e : Effect) : preserves P (emit (S := S) e).
Proof. intros s t H; exact H. Qed.

Lemma preserves_answer A (o : Outcome A) : preserves P (answer (S := S) o).
Proof. intros s t H; exact H. Qed.

Lemma preserves_gets A (f : S -> A) : preserves P (gets f).
Proof. intros s t H; exact H. Qed.

Lemma preserves_modify (f : S -> S) :
  (forall s, P s -> P (f s)) -> preserves P (modify f).
Proof. intros Hf s t H; apply Hf, H. Qed.

Lemma preserves_bind A B (m : M S A) (k : A -> M S B) :
  preserves P m -> (forall a, preserves P (k a)) -> preserves P (bind m k).
Proof.
  intros Hm Hk s t H. unfold bind.
  specialize (Hm s t H). destruct (m s t) as [[r s'] t'].
  destruct r as [a | e]; [apply Hk, Hm | exact Hm].
Qed.

Lemma preserves_try_catch A (body : M S A) (handler : JsError -> M S A) :
  preserves P body -> (forall e, preserves P (handler e)) ->
  preserves P (try_catch body handler).
Proof.
  intros Hb Hh s t H. unfold try_catch.
  specialize (Hb s t H). destruct (body s t) as [[r s'] t'].
  destruct r as [a | e]; [exact Hb | apply Hh, Hb].
Qed.

Lemma preserves_try_finally A (body : M S A) (fin : M S unit) :
  preserves P body -> preserves P fin -> preserves P (try_finally body fin).
Proof.
  intros Hb Hf s t H. unfold try_finally.
  specialize (Hb s t H). destruct (body s t) as [[r s'] t'].
  specialize (Hf s' t' Hb). destruct (fin s' t') as [[r' s''] t''].
  destruct r'; exact Hf.
Qed.

Lemma preserves_when (b : bool) (m : M S unit) :
  preserves P m -> preserves P (when b m).
Proof. intros Hm; destruct b; [exact Hm | apply preserves_ret]. Qed.

End Preservation.

(** Splits a computation along its structure, leaving the [modify] steps. *)
Ltac preserve_step :=
  first
    [ apply preserves_bind; [ | intros ? ]
    | apply preserves_try_finally
    | apply preserves_try_catch; [ | intros ? ]
    | apply preserves_when
    | apply preserves_ret
    | apply preserves_throw
    | apply preserves_emit
    | apply preserves_answer
    | apply preserves_gets
    | match goal with
      | |- preserves _ (match ?x with _ => _ end) => destruct x
      end ].

Section PageFacts.
Import SignUpPage.

Lemma fst_run A (m : M World A) (w : World) : fst (run m w) = final (m w []).
Proof. unfold run, final. destruct (m w []) as [[r w'] t]. reflexivity. Qed.


(** An invariant of the admitted events is an invariant of their runs. *)
Lemma run_events_invariant (P : World -> Prop) (admitted : Event -> bool) :
  (forall w0 ev, admitted ev = true -> preserves P (handle ev w0)) ->
  forall evs w, forallb admitted evs = true -> P w -> P (run_events w evs).
Proof.
  intros Hstep evs. induction evs as [| ev evs IH]; intros w Hall Hw.
  - exact Hw.
  - simpl in Hall. apply andb_true_iff in Hall as [Hev Hrest].
    simpl. apply IH; [exact Hrest |].
    unfold dispatch. rewrite fst_run. apply (Hstep w ev Hev), Hw.
Qed.

(** *** The setters touch their own cell only *)


(** *** Deleting the non-digits *)

Lemma replace_non_digits_all_digits (s : string) :
  all_digits (replace_non_digits s) = true.
Proof.
  induction s as [| c rest IH]; simpl; [reflexivity |].
  destruct (is_digit c) eqn:Hc; [simpl; rewrite Hc; exact IH | exact IH].
Qed.

Lemma replace_non_digits_fixes_digits (s : string) :
  all_digits s = true -> replace_non_digits s = s.
Proof.
  induction s as [| c rest IH]; simpl; intros H; [reflexivity |].
  apply andb_true_iff in H as [Hc Hrest]. rewrite Hc, (IH Hrest). reflexivity.
Qed.

Lemma all_digits_no_plus (s : string) :
  all_digits s = true -> startsWith s "+" = false.
Proof.
  destruct s as [| c rest]; intros H; [reflexivity |].
  cbn [all_digits] in H. apply andb_true_iff in H as [Hc _].
  unfold startsWith. cbn [prefix].
  destruct (Ascii.ascii_dec "+"%char c) as [<- | Hne]; [discriminate Hc | reflexivity].
Qed.

End PageFacts.

(** ** The sign-up flow, handler by handler *)

Section SignUpClaims.
Import SignUpPage.

(** C1, as the code has it: "Change number", pressed in the [code] step,
    puts the flow back in the [phone] step and calls no collaborator at all
    (so nothing reaches the identity provider); every other cell keeps its
    value, the stored confirmation result included, and the widget is left
    alone. *)
Theorem change_number_returns_to_phone (w : World) :
  in_step StepCode w = true ->
  let r := run (handle ChangeNumber w) w in
  step (ui (fst r)) = StepPhone /\
  snd r = [] /\
  existsb is_provider_call (snd r) = false /\
  confirmation (ui (fst r)) = confirmation (ui w) /\
  phone (ui (fst r)) = phone (ui w) /\
  code (ui (fst r)) = code (ui w) /\
  idToken (ui (fst r)) = idToken (ui w) /\
  loading (ui (fst r)) = loading (ui w) /\
  error (ui (fst r)) = error (ui w) /\
  recaptchaVerifier (fst r) = recaptchaVerifier w /\
  live (fst r) = live w.
Proof.
  intros Hstep r. subst r. unfold handle. rewrite Hstep.
  cbn. repeat split.
Qed.

Lemma change_number_returns_to_phone_witness :
  in_step StepCode at_code_step = true /\
  step (ui (fst (run (handle ChangeNumber at_code_step) at_code_step))) = StepPhone.
Proof.
  split; [reflexivity |].
  apply (change_number_returns_to_phone at_code_step). reflexivity.
Defined.

(** The handle is still there after "Change number": the claim of C1 that
    the stored confirmation result becomes absent fails on the world reached
    by entering 9876543210 and receiving a challenge. *)
Lemma change_number_keeps_handle :
  in_step StepCode at_code_step = true /\
  confirmation (ui at_code_step) = Some (mkConfirmation "vid-1") /\
  confirmation (ui (dispatch at_code_step ChangeNumber)) <> None.
Proof.
  split; [reflexivity |]. split; [reflexivity |].
  vm_compute. discriminate.
Qed.

(** C2: with no session token held, [handleProfileSubmit] ends with the
    authentication error on display and has called nothing: the request to
    the profile endpoint is not issued, whatever the network would have
    answered. *)
Theorem profile_submit_without_token (snap : State) (formData : FormData)
  (env : SubmitEnv) (w : World) :
  idToken snap = None ->
  let r := run (handleProfileSubmit snap formData env) w in
  error (ui (fst r)) =
    Some "No authentication token found. Please complete phone verification." /\
  existsb is_fetch (snd r) = false /\
  snd r = [] /\
  loading (ui (fst r)) = false /\
  step (ui (fst r)) = step (ui w).
Proof.
  intros Htok r. subst r. unfold handleProfileSubmit. rewrite Htok.
  cbn. repeat split.
Qed.

Lemma profile_submit_without_token_witness :
  idToken (ui at_code_step) = None /\
  error (ui (fst (run (handleProfileSubmit (ui at_code_step) jane
                         (answered (mkResponse true (Returns (JObj []))))) at_code_step))) =
    Some "No authentication token found. Please complete phone verification.".
Proof.
  split; [reflexivity |].
  apply (profile_submit_without_token (ui at_code_step) jane
           (answered (mkResponse true (Returns (JObj [])))) at_code_step).
  reflexivity.
Defined.

(** C4: [sendCode] normalizes the phone with [formattedPhone]: a string that
    starts with "+" is kept as it is, any other gets "+1" in front, so
    9876543210 becomes +19876543210; and every challenge [sendCode] requests
    is for the normalized number. *)
Theorem phone_normalization :
  (forall rest, formattedPhone (String "+" rest) = String "+" rest) /\
  (forall p, (forall rest, p <> String "+" rest) ->
             formattedPhone p = ("+1" ++ p)%string) /\
  formattedPhone "9876543210" = "+19876543210" /\
  (forall snap env w number verifier,
     In (SignInWithPhoneNumber number verifier) (snd (run (sendCode snap env) w)) ->
     number = formattedPhone (phone snap)).
Proof.
  split; [| split; [| split]].
  - intros rest. unfold formattedPhone, startsWith. cbn [prefix].
    destruct (Ascii.ascii_dec "+"%char "+"%char) as [_ | Hne];
      [destruct rest; reflexivity | contradiction Hne; reflexivity].
  - intros p Hp. unfold formattedPhone, startsWith.
    destruct p as [| c rest]; [reflexivity |].
    cbn [prefix].
    destruct (Ascii.ascii_dec "+"%char c) as [<- | Hne]; [| reflexivity].
    exfalso. apply (Hp rest). reflexivity.
  - reflexivity.
  - intros snap [[c n] s] [u stored alive count m] number verifier.
    destruct stored as [v |]; destruct c, n, s;
      cbv -[formattedPhone String.append or_else]; intros Hin;
      repeat (destruct Hin as [Hin | Hin];
              [try discriminate Hin;
               injection Hin as <- _; reflexivity |]);
      contradiction.
Qed.

Lemma phone_normalization_witness :
  (forall rest, "5550100"%string <> String "+" rest) /\
  formattedPhone "5550100" = "+15550100".
Proof.
  split; [intros rest H; discriminate H |].
  apply (proj1 (proj2 phone_normalization) "5550100"%string).
  intros rest H; discriminate H.
Defined.

(** Unfolds one handler down to its state transformer. *)
Ltac unfold_handler :=
  unfold run, sendCode, verifyCode, handleProfileSubmit, handleSubmit,
    setupRecaptcha, clear, newRecaptchaVerifier, signInWithPhoneNumber,
    confirm, getIdToken, fetch, json, detail_error, changeNumber,
    unmount_cleanup, expired_callback, error_callback,
    setPhone, setCode, setConfirmation, setStep, setIdToken, setLoading,
    setError;
  unfold try_finally, try_catch, bind, emit, gets, modify, answer, ret,
    throw, when.



(** The guard of C5 is the form's, not the handler's: [sendCode] run on an
    empty phone requests a challenge for "+1" and follows its answer. *)
Remark sendCode_does_not_check_emptiness :
  phone initial = ""%string /\
  snd (run (sendCode initial challenge_issued) fresh_world) =
    [PreventDefault; RecaptchaNew "recaptcha-container";
     SignInWithPhoneNumber "+1" (Some (mkVerifier 0))] /\
  step (ui (fst (run (sendCode initial challenge_issued) fresh_world))) = StepCode.
Proof. repeat split. Qed.

(** C6: when [sendCode] has asked the provider for a challenge and the
    provider has resolved with [result], the flow is in the [code] step and
    the confirmation cell holds that [result]. *)
Theorem challenge_issued_moves_to_code (snap : State) (env : SendCodeEnv)
  (w : World) (result : ConfirmationResult) :
  existsb is_challenge_request (snd (run (sendCode snap env) w)) = true ->
  signIn_result env = Returns result ->
  step (ui (fst (run (sendCode snap env) w))) = StepCode /\
  confirmation (ui (fst (run (sendCode snap env) w))) = Some result /\
  loading (ui (fst (run (sendCode snap env) w))) = false /\
  error (ui (fst (run (sendCode snap env) w))) = None.
Proof.
  destruct env as [[c n] s]. destruct w as [u stored alive count m].
  cbn [signIn_result]. intros Hcall ->. revert Hcall.
  destruct stored as [v |]; destruct c, n;
    cbv -[formattedPhone String.append or_else]; intros Hcall;
    try discriminate Hcall; repeat split.
Qed.

Lemma challenge_issued_moves_to_code_witness :
  existsb is_challenge_request
    (snd (run (sendCode initial challenge_issued) fresh_world)) = true /\
  signIn_result challenge_issued = Returns (mkConfirmation "vid-1") /\
  step (ui (fst (run (sendCode initial challenge_issued) fresh_world))) = StepCode.
Proof.
  split; [reflexivity |]. split; [reflexivity |].
  apply (challenge_issued_moves_to_code initial challenge_issued fresh_world
           (result := mkConfirmation "vid-1")); reflexivity.
Defined.

(** C7: with no pending verification handle, [verifyCode] only cancels the
    form's default action: the world it ends in is the world it started in
    (step, loading, error and every other cell), and no provider is
    contacted. *)
Theorem verify_without_handle_is_noop (snap : State) (env : VerifyEnv)
  (w : World) :
  confirmation snap = None ->
  run (verifyCode snap env) w = (w, [PreventDefault]) /\
  existsb is_provider_call (snd (run (verifyCode snap env) w)) = false.
Proof.
  intros Hnone. unfold verifyCode. rewrite Hnone. split; reflexivity.
Qed.

Lemma verify_without_handle_is_noop_witness :
  confirmation initial = None /\
  run (verifyCode initial code_accepted) fresh_world = (fresh_world, [PreventDefault]).
Proof.
  split; [reflexivity |].
  apply (verify_without_handle_is_noop initial code_accepted fresh_world).
  reflexivity.
Defined.

(** *** Rejected profile submissions *)

Lemma truthy_token (t : option string) :
  falsy_token t = false -> exists tok, t = Some tok /\ nonempty tok = true.
Proof.
  destruct t as [tok |]; [| discriminate].
  cbn. intros H. exists tok. split; [reflexivity |].
  destruct (nonempty tok); [reflexivity | discriminate H].
Qed.

(** What a rejected submission leaves behind, whatever the body was. *)
Lemma rejected_submission_effects (snap : State) (formData : FormData)
  (te : JsError) (jr : Outcome JsValue) (w : World) (tok : string) :
  idToken snap = Some tok -> nonempty tok = true ->
  let env := mkSubmitEnv (Returns (mkResponse false jr)) te in
  step (ui (fst (run (handleProfileSubmit snap formData env) w))) = step (ui w) /\
  snd (run (handleProfileSubmit snap formData env) w) =
    [Fetch submit_url ("Bearer " ++ tok)%string formData; ResponseJson].
Proof.
  intros Htok Hne env. subst env. unfold_handler. rewrite Htok.
  cbn [falsy_token token_text fetch_result type_error ok json_result negb].
  rewrite Hne. cbn [negb app].
  destruct jr as [data | e]; [| split; reflexivity].
  destruct (getProperty te data "detail") as [d | e]; split; reflexivity.
Qed.

(** The message shown for a body that is a JSON object. *)
Lemma rejected_submission_message (snap : State) (formData : FormData)
  (te : JsError) (fields : list (string * JsValue)) (w : World) (tok : string) :
  idToken snap = Some tok -> nonempty tok = true ->
  let env := mkSubmitEnv (Returns (mkResponse false (Returns (JObj fields)))) te in
  error (ui (fst (run (handleProfileSubmit snap formData env) w))) =
    Some (or_else
            (ToString (match lookup "detail" fields with
                       | Some d => if truthy d then d
                                   else JStr "Failed to save profile"
                       | None => JStr "Failed to save profile"
                       end))
            "Failed to save profile. Please try again.").
Proof.
  intros Htok Hne env. subst env. unfold_handler. rewrite Htok.
  cbn [falsy_token token_text fetch_result type_error ok json_result negb].
  rewrite Hne. cbn [negb app getProperty].
  destruct (lookup "detail" fields) as [d |]; [| reflexivity].
  destruct (truthy d); reflexivity.
Qed.

(** C3, as the code has it: a non-success response keeps the flow in its
    step and navigates nowhere; when the body is a JSON object, the error on
    display is its [detail] if that is a non-empty string, and
    'Failed to save profile' if the object has no [detail] or an empty
    one. *)
Theorem rejected_profile_stays_and_reports (snap : State) (formData : FormData)
  (env : SubmitEnv) (w : World) (response : Response) :
  falsy_token (idToken snap) = false ->
  fetch_result env = Returns response ->
  ok response = false ->
  let r := run (handleProfileSubmit snap formData env) w in
  step (ui (fst r)) = step (ui w) /\
  existsb is_navigation (snd r) = false /\
  (forall s, body_detail response = Some (JStr s) -> nonempty s = true ->
             error (ui (fst r)) = Some s) /\
  (forall fields, json_result response = Returns (JObj fields) ->
                  lookup "detail" fields = None \/
                  lookup "detail" fields = Some (JStr "") ->
                  error (ui (fst r)) = Some "Failed to save profile"%string).
Proof.
  intros Htok Hfetch Hok r. subst r.
  apply truthy_token in Htok as (tok & Htok & Hne).
  destruct env as [fr te]. cbn [fetch_result] in Hfetch. subst fr.
  destruct response as [k jr]. cbn [ok] in Hok. subst k.
  destruct (rejected_submission_effects snap formData te jr w Htok Hne)
    as [Hstep Htrace].
  split; [exact Hstep |]. split; [rewrite Htrace; reflexivity |]. split.
  - intros s Hdetail Hs. unfold body_detail in Hdetail. cbn [json_result] in Hdetail.
    destruct jr as [data | e]; [| discriminate Hdetail].
    destruct data; try discriminate Hdetail.
    rewrite (rejected_submission_message snap formData te fields w Htok Hne).
    rewrite Hdetail. cbn [truthy]. rewrite Hs. cbn [ToString].
    unfold or_else. rewrite Hs. reflexivity.
  - intros fields Hjson Hcase. cbn [json_result] in Hjson. subst jr.
    rewrite (rejected_submission_message snap formData te fields w Htok Hne).
    destruct Hcase as [-> | ->]; reflexivity.
Qed.

Lemma rejected_profile_stays_and_reports_witness :
  falsy_token (idToken (ui at_profile_step)) = false /\
  fetch_result (answered email_used) = Returns email_used /\
  ok email_used = false /\
  shown_error email_used = Some "Email already used"%string.
Proof.
  split; [reflexivity |]. split; [reflexivity |]. split; [reflexivity |].
  apply (rejected_profile_stays_and_reports (ui at_profile_step) jane
           (answered email_used) at_profile_step (response := email_used)
           eq_refl eq_refl eq_refl);
    reflexivity.
Defined.

(** C3 as stated fails twice. A non-success response whose body is not JSON
    (a gateway's HTML page) has no [detail], yet the error on display is the
    parser's message, not the fallback; and a body whose [detail] is the
    empty string has the field, yet the fallback is displayed. *)
Lemma rejected_profile_display_differs :
  (ok html_error_page = false /\
   body_detail html_error_page = None /\
   shown_error html_error_page =
     Some "Unexpected token < in JSON at position 0"%string /\
   shown_error html_error_page <> Some "Failed to save profile"%string) /\
  (ok blank_detail = false /\
   body_detail blank_detail = Some (JStr "") /\
   shown_error blank_detail = Some "Failed to save profile"%string /\
   shown_error blank_detail <> Some ""%string).
Proof.
  split; (split; [reflexivity |]; split; [reflexivity |];
          split; [reflexivity |]); vm_compute; discriminate.
Qed.

End SignUpClaims.

(** ** Invariants of the page's runs *)

Section RunInvariants.
Import SignUpPage.

(** An update of the React cells that leaves both text inputs alone. *)
Lemma set_ui_keeps_digits (f : State -> State) :
  (forall u, phone (f u) = phone u) -> (forall u, code (f u) = code u) ->
  preserves digits_only (modify (set_ui f)).
Proof.
  intros Hp Hc. apply preserves_modify. intros w [Hphone Hcode].
  unfold digits_only. cbn [ui set_ui]. rewrite Hp, Hc. split; assumption.
Qed.

(** An update of the world outside the React cells. *)
Lemma outside_ui_keeps_digits (f : World -> World) :
  (forall w, ui (f w) = ui w) -> preserves digits_only (modify f).
Proof.
  intros Hf. apply preserves_modify. intros w H.
  unfold digits_only. rewrite Hf. exact H.
Qed.

Lemma phoneChange_keeps_digits (value : string) :
  preserves digits_only (phoneChange value).
Proof.
  apply preserves_modify. intros w [_ Hcode]. split; [| exact Hcode].
  apply replace_non_digits_all_digits.
Qed.

Lemma codeChange_keeps_digits (value : string) :
  preserves digits_only (codeChange value).
Proof.
  apply preserves_modify. intros w [Hphone _]. split; [exact Hphone |].
  apply replace_non_digits_all_digits.
Qed.

Ltac digits_leaf :=
  solve [ apply phoneChange_keeps_digits
        | apply codeChange_keeps_digits
        | apply set_ui_keeps_digits; intros ?; reflexivity
        | apply outside_ui_keeps_digits; intros ?; reflexivity
        | apply preserves_modify; intros ? _; split; reflexivity ].

Lemma handle_keeps_digits (ev : Event) (w0 : World) :
  preserves digits_only (handle ev w0).
Proof.
  destruct ev; unfold handle, phoneFormSubmit, codeFormSubmit,
    profileFormSubmit, handleSubmit, sendCode, verifyCode, handleProfileSubmit,
    setupRecaptcha, clear, newRecaptchaVerifier, signInWithPhoneNumber,
    confirm, getIdToken, fetch, json, detail_error, changeNumber,
    unmount_cleanup, expired_callback, error_callback,
    setConfirmation, setStep, setIdToken, setLoading, setError;
    repeat first [ digits_leaf | preserve_step ].
Qed.

(** C9: each change event stores its input with every non-digit deleted, and
    nothing else writes the two cells; so after any sequence of events, from
    the fresh page, the phone and the code are made of decimal digits only,
    and the phone does not start with "+". *)
Theorem inputs_hold_only_digits :
  (forall value w,
     phone (ui (fst (run (phoneChange value) w))) = replace_non_digits value /\
     code (ui (fst (run (codeChange value) w))) = replace_non_digits value) /\
  (forall value, all_digits (replace_non_digits value) = true) /\
  (forall evs,
     all_digits (phone (ui (run_events fresh_world evs))) = true /\
     all_digits (code (ui (run_events fresh_world evs))) = true /\
     startsWith (phone (ui (run_events fresh_world evs))) "+" = false).
Proof.
  split; [intros value w; split; reflexivity |].
  split; [exact replace_non_digits_all_digits |].
  intros evs.
  assert (H : digits_only (run_events fresh_world evs)).
  { apply (run_events_invariant (P := digits_only) (fun _ => true)).
    - intros w0 ev _. apply handle_keeps_digits.
    - clear. induction evs as [| ev evs IH]; [reflexivity | exact IH].
    - split; reflexivity. }
  destruct H as [Hphone Hcode].
  split; [exact Hphone |]. split; [exact Hcode |].
  apply all_digits_no_plus, Hphone.
Qed.

(** *** The bot-check widget *)










End RunInvariants.

(** ** The dashboard *)

Section DashboardClaims.
Import Dashboard.

(** The sign-out button is on the page only in the profile view. *)
Lemma sign_out_offered (s : State) :
  In SignOutButton (controls (render s)) -> loading s = false.
Proof.
  unfold render. destruct (loading s); [intros [] | reflexivity].
Qed.

(** C10: when the provider's [signOut] rejects, [handleSignOut] navigates
    nowhere and sets the error to 'Failed to sign out'; the page, which
    offered the sign-out button, now renders the error panel with that
    message and its retry button. *)
Theorem failed_sign_out_shows_error (s : State) (e : JsError) :
  In SignOutButton (controls (render s)) ->
  let r := run (handleSignOut (Throws e)) s in
  snd r = [SignOut] /\
  existsb is_navigation (snd r) = false /\
  error (fst r) = Some "Failed to sign out"%string /\
  render (fst r) = ErrorPanel "Failed to sign out" /\
  In RetryButton (controls (render (fst r))).
Proof.
  intros Hbutton r. subst r. apply sign_out_offered in Hbutton.
  unfold run, handleSignOut, signOut, setError, render.
  cbn. rewrite Hbutton. cbn. repeat split. left. reflexivity.
Qed.

Lemma failed_sign_out_shows_error_witness :
  In SignOutButton (controls (render signed_in)) /\
  render (fst (run (handleSignOut (Throws (mkError "auth/network-request-failed")))
                 signed_in)) = ErrorPanel "Failed to sign out".
Proof.
  split; [left; reflexivity |].
  apply (failed_sign_out_shows_error signed_in
           (mkError "auth/network-request-failed")).
  left. reflexivity.
Defined.

End DashboardClaims.

(** ** The handlers' other outcomes *)

Section SignUpOutcomes.
Import SignUpPage.

Ltac evaluate := cbv -[formattedPhone String.append or_else].

(** X1: when the provider rejects the challenge request, the flow stays in
    its step with its confirmation cell untouched, the rejection's message
    is displayed behind the fixed prefix, the busy flag is down, and the
    widget instance just created stays stored and live for the retry. *)
Theorem send_code_rejected (snap : State) (env : SendCodeEnv) (w : World)
  (e : JsError) :
  existsb is_challenge_request (snd (run (sendCode snap env) w)) = true ->
  signIn_result env = Throws e ->
  step (ui (fst (run (sendCode snap env) w))) = step (ui w) /\
  confirmation (ui (fst (run (sendCode snap env) w))) = confirmation (ui w) /\
  error (ui (fst (run (sendCode snap env) w))) = Some (send_failure e) /\
  loading (ui (fst (run (sendCode snap env) w))) = false /\
  recaptchaVerifier (fst (run (sendCode snap env) w)) = Some (mkVerifier (created w)) /\
  In (mkVerifier (created w)) (live (fst (run (sendCode snap env) w))).
Proof.
  destruct env as [[c n] s]. destruct w as [u stored alive count m].
  cbn [signIn_result]. intros Hcall ->. revert Hcall.
  destruct stored as [v |]; destruct c, n; evaluate; intros Hcall;
    try discriminate Hcall; repeat split; left; reflexivity.
Qed.

Lemma send_code_rejected_witness :
  existsb is_challenge_request
    (snd (run (sendCode initial
                 (mkSendCodeEnv (mkWidgetEnv (Returns tt) (Returns tt))
                    (Throws (mkError "auth/too-many-requests"))))
            fresh_world)) = true /\
  error (ui (fst (run (sendCode initial
                 (mkSendCodeEnv (mkWidgetEnv (Returns tt) (Returns tt))
                    (Throws (mkError "auth/too-many-requests"))))
            fresh_world))) =
    Some "Failed to send verification code: auth/too-many-requests"%string.
Proof.
  split; [reflexivity |].
  apply (send_code_rejected initial
           (mkSendCodeEnv (mkWidgetEnv (Returns tt) (Returns tt))
              (Throws (mkError "auth/too-many-requests")))
           fresh_world (e := mkError "auth/too-many-requests"));
    reflexivity.
Defined.

(** X2: when [sendCode] requests no challenge, it is because the widget
    could not be set up: [clear()] or the constructor threw. That error is
    the one displayed, no provider call is made, and step and confirmation
    are as before. *)
Theorem send_code_without_widget (snap : State) (env : SendCodeEnv) (w : World) :
  existsb is_challenge_request (snd (run (sendCode snap env) w)) = false ->
  (exists e,
     (clear_result (widget env) = Throws e \/ new_result (widget env) = Throws e) /\
     error (ui (fst (run (sendCode snap env) w))) = Some (send_failure e)) /\
  existsb is_provider_call (snd (run (sendCode snap env) w)) = false /\
  step (ui (fst (run (sendCode snap env) w))) = step (ui w) /\
  confirmation (ui (fst (run (sendCode snap env) w))) = confirmation (ui w) /\
  loading (ui (fst (run (sendCode snap env) w))) = false.
Proof.
  destruct env as [[c n] s]. destruct w as [u stored alive count m].
  destruct stored as [v |]; destruct c as [[] | ec], n as [[] | en], s;
    evaluate; intros Hcall; try discriminate Hcall;
    (split; [ first [ solve [eexists; split; [left; reflexivity | reflexivity]]
                    | solve [eexists; split; [right; reflexivity | reflexivity]] ]
            | repeat split ]).
Qed.

Lemma send_code_without_widget_witness :
  existsb is_challenge_request
    (snd (run (sendCode initial
                 (mkSendCodeEnv
                    (mkWidgetEnv (Returns tt) (Throws (mkError "container not found")))
                    (Returns (mkConfirmation "vid-1"))))
            fresh_world)) = false /\
  existsb is_provider_call
    (snd (run (sendCode initial
                 (mkSendCodeEnv
                    (mkWidgetEnv (Returns tt) (Throws (mkError "container not found")))
                    (Returns (mkConfirmation "vid-1"))))
            fresh_world)) = false.
Proof.
  split; [reflexivity |].
  apply (send_code_without_widget initial
           (mkSendCodeEnv
              (mkWidgetEnv (Returns tt) (Throws (mkError "container not found")))
              (Returns (mkConfirmation "vid-1")))
           fresh_world).
  reflexivity.
Defined.

(** X3: when the code is confirmed and the token obtained, [verifyCode]
    stores the token, moves to the [profile] step with no error and the busy
    flag down, and has called [confirm] with the typed code, then
    [getIdToken], each once. *)
Theorem verify_code_accepted (snap : State) (env : VerifyEnv) (w : World)
  (c : ConfirmationResult) (cred : UserCredential) (token : string) :
  confirmation snap = Some c ->
  confirm_result env = Returns cred ->
  getIdToken_result cred = Returns token ->
  snd (run (verifyCode snap env) w) = [PreventDefault; Confirm c (code snap); GetIdToken] /\
  step (ui (fst (run (verifyCode snap env) w))) = StepProfile /\
  idToken (ui (fst (run (verifyCode snap env) w))) = Some token /\
  error (ui (fst (run (verifyCode snap env) w))) = None /\
  loading (ui (fst (run (verifyCode snap env) w))) = false /\
  phone (ui (fst (run (verifyCode snap env) w))) = phone (ui w) /\
  code (ui (fst (run (verifyCode snap env) w))) = code (ui w) /\
  confirmation (ui (fst (run (verifyCode snap env) w))) = confirmation (ui w).
Proof.
  destruct env as [cr]. destruct cred as [tr]. cbn [confirm_result getIdToken_result].
  intros Hc -> ->. unfold verifyCode. rewrite Hc. repeat split.
Qed.

Lemma verify_code_accepted_witness :
  confirmation (ui at_code_step) = Some (mkConfirmation "vid-1") /\
  step (ui (fst (run (verifyCode (ui at_code_step) code_accepted) at_code_step))) =
    StepProfile.
Proof.
  split; [reflexivity |].
  apply (verify_code_accepted (ui at_code_step) code_accepted at_code_step
           (c := mkConfirmation "vid-1")
           (cred := mkCredential (Returns "token-1"%string))
           (token := "token-1"%string));
    reflexivity.
Defined.

(** X4: unless both [confirm] and [getIdToken] succeed, [verifyCode] leaves
    the step, the token, the handle and the typed code as they were, and
    displays the invalid-code message, also when it was the token retrieval
    that failed. *)
Theorem verify_code_refused (snap : State) (env : VerifyEnv) (w : World)
  (c : ConfirmationResult) :
  confirmation snap = Some c ->
  (forall cred token, confirm_result env = Returns cred ->
                      getIdToken_result cred <> Returns token) ->
  error (ui (fst (run (verifyCode snap env) w))) =
    Some "Invalid verification code. Please try again."%string /\
  step (ui (fst (run (verifyCode snap env) w))) = step (ui w) /\
  idToken (ui (fst (run (verifyCode snap env) w))) = idToken (ui w) /\
  confirmation (ui (fst (run (verifyCode snap env) w))) = confirmation (ui w) /\
  code (ui (fst (run (verifyCode snap env) w))) = code (ui w) /\
  loading (ui (fst (run (verifyCode snap env) w))) = false /\
  existsb is_navigation (snd (run (verifyCode snap env) w)) = false.
Proof.
  destruct env as [cr]. cbn [confirm_result]. intros Hc Hfail.
  unfold verifyCode. rewrite Hc.
  destruct cr as [[tr] | e]; [| repeat split].
  destruct tr as [token | e]; [| repeat split].
  exfalso. apply (Hfail (mkCredential (Returns token)) token); reflexivity.
Qed.

Lemma verify_code_refused_witness :
  confirmation (ui at_code_step) = Some (mkConfirmation "vid-1") /\
  error (ui (fst (run (verifyCode (ui at_code_step)
                         (mkVerifyEnv (Returns (mkCredential
                            (Throws (mkError "auth/network-request-failed"))))))
                    at_code_step))) =
    Some "Invalid verification code. Please try again."%string.
Proof.
  split; [reflexivity |].
  apply (verify_code_refused (ui at_code_step)
           (mkVerifyEnv (Returns (mkCredential
              (Throws (mkError "auth/network-request-failed")))))
           at_code_step (c := mkConfirmation "vid-1")); [reflexivity |].
  intros cred token H. injection H as <-. discriminate.
Defined.

End SignUpOutcomes.

(** ** Profile submission: success, transport failures, odd bodies *)

Section ProfileOutcomes.
Import SignUpPage.

Ltac evaluate := cbv -[String.append or_else].

(** What an accepted submission does, whatever the body holds. *)
Lemma accepted_submission_effects (snap : State) (formData : FormData)
  (te : JsError) (data : JsValue) (w : World) (tok : string) :
  idToken snap = Some tok -> nonempty tok = true ->
  let env := mkSubmitEnv (Returns (mkResponse true (Returns data))) te in
  snd (run (handleProfileSubmit snap formData env) w) =
    [Fetch submit_url ("Bearer " ++ tok)%string formData; ResponseJson;
     RouterPush "/dashboard"] /\
  error (ui (fst (run (handleProfileSubmit snap formData env) w))) = None /\
  loading (ui (fst (run (handleProfileSubmit snap formData env) w))) = false /\
  step (ui (fst (run (handleProfileSubmit snap formData env) w))) = step (ui w).
Proof.
  intros Htok Hne env. subst env.
  unfold handleProfileSubmit. rewrite Htok.
  destruct tok as [| ch rest]; [discriminate Hne |].
  evaluate. repeat split.
Qed.

(** X5: with a token held and a success response whose body reads as JSON,
    [handleProfileSubmit] posts the form as it was handed over, with the
    token as bearer, reads the body, and navigates to the dashboard; no
    error is displayed and the busy flag is down. What the body holds is of
    no consequence. *)
Theorem profile_submit_accepted (snap : State) (formData : FormData)
  (env : SubmitEnv) (w : World) (tok : string) (response : Response)
  (data : JsValue) :
  idToken snap = Some tok -> nonempty tok = true ->
  fetch_result env = Returns response ->
  ok response = true ->
  json_result response = Returns data ->
  snd (run (handleProfileSubmit snap formData env) w) =
    [Fetch submit_url ("Bearer " ++ tok)%string formData; ResponseJson;
     RouterPush "/dashboard"] /\
  error (ui (fst (run (handleProfileSubmit snap formData env) w))) = None /\
  loading (ui (fst (run (handleProfileSubmit snap formData env) w))) = false /\
  step (ui (fst (run (handleProfileSubmit snap formData env) w))) = step (ui w).
Proof.
  destruct env as [fr te]. destruct response as [k jr].
  cbn [fetch_result ok json_result]. intros Htok Hne -> -> ->.
  exact (accepted_submission_effects snap formData te data w Htok Hne).
Qed.

Lemma profile_submit_accepted_witness :
  idToken (ui at_profile_step) = Some "token-1"%string /\
  snd (run (handleProfileSubmit (ui at_profile_step) jane
              (answered (mkResponse true (Returns (JObj [])))))
         at_profile_step) =
    [Fetch submit_url "Bearer token-1" jane; ResponseJson; RouterPush "/dashboard"].
Proof.
  split; [reflexivity |].
  apply (profile_submit_accepted (ui at_profile_step) jane
           (answered (mkResponse true (Returns (JObj []))))
           at_profile_step (tok := "token-1"%string)
           (response := mkResponse true (Returns (JObj [])))
           (data := JObj []));
    reflexivity.
Defined.

(** X6: [handleProfileSubmit] navigates exactly when a token is held, the
    request resolved with a success status and the body could be read; in
    every other case it navigates nowhere. *)
Theorem navigation_only_on_success (snap : State) (formData : FormData)
  (env : SubmitEnv) (w : World) :
  existsb is_navigation (snd (run (handleProfileSubmit snap formData env) w)) = true
  <->
  (falsy_token (idToken snap) = false /\
   exists response data,
     fetch_result env = Returns response /\ ok response = true /\
     json_result response = Returns data).
Proof.
  destruct env as [fr te]. cbn [fetch_result].
  destruct (falsy_token (idToken snap)) eqn:Hfalsy.
  - split; [| intros [H _]; discriminate H].
    unfold handleProfileSubmit. rewrite Hfalsy. evaluate. discriminate.
  - apply truthy_token in Hfalsy as (tok & Htok & Hne).
    destruct fr as [[k jr] | e].
    + destruct k.
      * destruct jr as [data | e].
        -- rewrite (proj1 (accepted_submission_effects snap formData te data w
                             Htok Hne)).
           split; [intros _ | reflexivity].
           split; [reflexivity |]. exists (mkResponse true (Returns data)), data.
           repeat split.
        -- split.
           ++ unfold handleProfileSubmit. rewrite Htok.
              destruct tok; [discriminate Hne |]. evaluate. discriminate.
           ++ intros (_ & response & data & Hr & _ & Hj).
              injection Hr as <-. discriminate Hj.
      * rewrite (proj2 (rejected_submission_effects snap formData te jr w Htok Hne)).
        split; [discriminate |].
        intros (_ & response & data & Hr & Hk & _).
        injection Hr as <-. discriminate Hk.
    + split.
      * unfold handleProfileSubmit. rewrite Htok.
        destruct tok; [discriminate Hne |]. evaluate. discriminate.
      * intros (_ & response & data & Hr & _). discriminate Hr.
Qed.

Lemma navigation_only_on_success_witness :
  existsb is_navigation
    (snd (run (handleProfileSubmit (ui at_profile_step) jane
                 (answered (mkResponse true (Returns JNull))))
            at_profile_step)) = true.
Proof.
  apply (proj2 (navigation_only_on_success (ui at_profile_step) jane
                  (answered (mkResponse true (Returns JNull))) at_profile_step)).
  split; [reflexivity |].
  exists (mkResponse true (Returns JNull)), JNull. repeat split.
Defined.

(** X7: when the request itself rejects, or the response body cannot be
    read as JSON (whatever the status, success included), the error on
    display is that failure's message, or 'Failed to save profile. Please
    try again.' when the message is empty; the step is kept and nothing
    navigates. A rejected request is not read at all. *)
Theorem profile_submit_transport_failure (snap : State) (formData : FormData)
  (env : SubmitEnv) (w : World) (e : JsError) :
  falsy_token (idToken snap) = false ->
  (fetch_result env = Throws e \/
   exists response, fetch_result env = Returns response /\
                    json_result response = Throws e) ->
  error (ui (fst (run (handleProfileSubmit snap formData env) w))) =
    Some (or_else (message e) "Failed to save profile. Please try again.") /\
  step (ui (fst (run (handleProfileSubmit snap formData env) w))) = step (ui w) /\
  loading (ui (fst (run (handleProfileSubmit snap formData env) w))) = false /\
  existsb is_navigation (snd (run (handleProfileSubmit snap formData env) w)) = false /\
  (fetch_result env = Throws e ->
   existsb is_json_read (snd (run (handleProfileSubmit snap formData env) w)) = false).
Proof.
  intros Hfalsy Hcase.
  apply truthy_token in Hfalsy as (tok & Htok & Hne).
  destruct env as [fr te]. cbn [fetch_result] in *.
  unfold handleProfileSubmit. rewrite Htok.
  destruct tok as [| ch rest]; [discriminate Hne |].
  destruct Hcase as [-> | ([k jr] & -> & Hj)].
  - evaluate. repeat split.
  - cbn [json_result] in Hj. subst jr. destruct k; evaluate;
      (repeat split; intros H; discriminate H).
Qed.

Lemma profile_submit_transport_failure_witness :
  falsy_token (idToken (ui at_profile_step)) = false /\
  shown_error html_error_page =
    Some "Unexpected token < in JSON at position 0"%string.
Proof.
  split; [reflexivity |].
  apply (profile_submit_transport_failure (ui at_profile_step) jane
           (answered html_error_page) at_profile_step
           (e := mkError "Unexpected token < in JSON at position 0"));
    [reflexivity |].
  right. exists html_error_page. split; reflexivity.
Defined.

(** X8: an empty token counts as no token: whenever [idToken] is [null] or
    the empty string, the authentication error is displayed and no request
    is issued. *)
Theorem profile_submit_falsy_token (snap : State) (formData : FormData)
  (env : SubmitEnv) (w : World) :
  idToken snap = None \/ idToken snap = Some ""%string ->
  error (ui (fst (run (handleProfileSubmit snap formData env) w))) =
    Some "No authentication token found. Please complete phone verification."%string /\
  snd (run (handleProfileSubmit snap formData env) w) = [] /\
  loading (ui (fst (run (handleProfileSubmit snap formData env) w))) = false.
Proof.
  intros [Htok | Htok]; unfold handleProfileSubmit; rewrite Htok;
    evaluate; repeat split.
Qed.

Lemma profile_submit_falsy_token_witness :
  idToken (ui at_code_step) = None /\
  snd (run (handleProfileSubmit (ui at_code_step) jane (answered email_used))
         at_code_step) = [].
Proof.
  split; [reflexivity |].
  apply (profile_submit_falsy_token (ui at_code_step) jane (answered email_used)
           at_code_step).
  left. reflexivity.
Defined.

(** *** Bodies whose [detail] is not a string *)





(** X10: a non-success response whose body is the JSON value [null] makes
    the read of [detail] throw: the error on display is the engine's
    [TypeError] message, not the fallback, and nothing navigates. *)
Theorem null_body_shows_type_error (snap : State) (formData : FormData)
  (env : SubmitEnv) (w : World) (response : Response) :
  falsy_token (idToken snap) = false ->
  fetch_result env = Returns response ->
  ok response = false ->
  json_result response = Returns JNull ->
  error (ui (fst (run (handleProfileSubmit snap formData env) w))) =
    Some (or_else (message (type_error env))
            "Failed to save profile. Please try again.") /\
  existsb is_navigation (snd (run (handleProfileSubmit snap formData env) w)) = false.
Proof.
  intros Hfalsy Hfetch Hok Hjson.
  apply truthy_token in Hfalsy as (tok & Htok & Hne).
  destruct env as [fr te]. cbn [fetch_result type_error] in *. subst fr.
  destruct response as [k jr]. cbn [ok json_result] in Hok, Hjson. subst k jr.
  unfold handleProfileSubmit. rewrite Htok.
  destruct tok as [| ch rest]; [discriminate Hne |].
  evaluate. split; reflexivity.
Qed.

Lemma null_body_shows_type_error_witness :
  falsy_token (idToken (ui at_profile_step)) = false /\
  shown_error (mkResponse false (Returns JNull)) =
    Some "Cannot read properties of null (reading 'detail')"%string.
Proof.
  split; [reflexivity |].
  apply (null_body_shows_type_error (ui at_profile_step) jane
           (answered (mkResponse false (Returns JNull))) at_profile_step
           (response := mkResponse false (Returns JNull)));
    reflexivity.
Defined.

End ProfileOutcomes.

(** ** The flow as a state machine *)

Section FlowMachine.
Import SignUpPage.

Ltac evaluate :=
  cbv -[replace_non_digits filter formattedPhone String.append or_else].

(** [handleProfileSubmit] writes the busy flag and the error only. *)
Lemma handleProfileSubmit_keeps (st : Step) (tok : option string)
  (conf : option ConfirmationResult) (snap : State) (formData : FormData)
  (env : SubmitEnv) :
  preserves (fun w => step (ui w) = st /\ idToken (ui w) = tok /\
                      confirmation (ui w) = conf)
    (handleProfileSubmit snap formData env).
Proof.
  unfold handleProfileSubmit, fetch, json, detail_error, setLoading, setError.
  repeat first [ solve [apply preserves_modify; intros ? H; exact H]
               | preserve_step ].
Qed.

(** A handler that ends in [finally { setLoading(false) }] ends idle. *)
Lemma finally_idle A (body : M World A) (w : World) (t : list Effect) :
  loading (ui (final (try_finally body (setLoading false) w t))) = false.
Proof.
  unfold try_finally. destruct (body w t) as [[r w'] t']. reflexivity.
Qed.

Lemma profile_submit_keeps_flow (w : World) (formData : FormData) (env : SubmitEnv) :
  flow_consistent w -> flow_consistent (dispatch w (ProfileSubmit formData env)).
Proof.
  intros (Hld & Htok & Hconf). unfold dispatch. rewrite fst_run.
  unfold handle, profileFormSubmit, handleSubmit.
  destruct (in_step StepProfile w); [| repeat split; tauto].
  destruct (negb (loading (ui w)) && required (name formData)
            && required (address formData)); [| repeat split; tauto].
  cbn [when]. unfold bind at 1, emit at 1. cbn [app].
  pose proof (@handleProfileSubmit_keeps (step (ui w)) (idToken (ui w))
                (confirmation (ui w)) (ui w) formData env w [PreventDefault]
                (conj eq_refl (conj eq_refl eq_refl)))
    as (Hs & Ht & Hc).
  unfold flow_consistent. rewrite Hs, Ht, Hc.
  split; [| split; assumption].
  unfold handleProfileSubmit. apply finally_idle.
Qed.

(** Every event keeps the flow consistent. *)
Lemma dispatch_keeps_flow (w : World) (ev : Event) :
  flow_consistent w -> flow_consistent (dispatch w ev).
Proof.
  destruct ev as [v | env | v | env | | formData env | v | v e | r | ];
    try apply profile_submit_keeps_flow;
    destruct w as [[ph cd conf st tok ld er] stored alive count m];
    unfold flow_consistent; cbn [ui loading step idToken confirmation];
    intros (Hld & Htok & Hconf); subst ld;
    destruct st, tok, conf; try (exfalso; intuition congruence).
  all: try (destruct env as [[wc wn] ws]; destruct wc, wn, ws, stored, ph).
  all: try (destruct env as [[[tr] | ce]]; [destruct tr |]; destruct cd).
  all: try destruct r.
  all: try (unfold dispatch, handle, is_live; cbn [live];
            destruct (existsb (verifier_eqb v) alive)).
  all: destruct m; try destruct stored; evaluate; intuition congruence.
Qed.

Lemma run_keeps_flow (evs : list Event) (w : World) :
  flow_consistent w -> flow_consistent (run_events w evs).
Proof.
  revert w. induction evs as [| ev evs IH]; intros w H; [exact H |].
  cbn [run_events fold_left]. apply IH, dispatch_keeps_flow, H.
Qed.

Lemma fresh_world_consistent : flow_consistent fresh_world.
Proof.
  unfold flow_consistent. cbn. repeat split; intros H; try discriminate H;
    contradiction H; reflexivity.
Qed.

End FlowMachine.

Section FlowTheorems.
Import SignUpPage.

Ltac evaluate :=
  cbv -[replace_non_digits filter formattedPhone String.append or_else].



(** X12: after any sequence of events, a session token is held exactly when
    the flow is in the [profile] step, and a verification handle is held
    whenever the flow is past the [phone] step. *)
Theorem token_exactly_in_profile (evs : list Event) :
  (step (ui (run_events fresh_world evs)) = StepProfile <->
   idToken (ui (run_events fresh_world evs)) <> None) /\
  (step (ui (run_events fresh_world evs)) <> StepPhone ->
   confirmation (ui (run_events fresh_world evs)) <> None).
Proof.
  destruct (run_keeps_flow evs fresh_world_consistent) as (_ & Htok & Hconf).
  split; assumption.
Qed.

Lemma token_exactly_in_profile_witness :
  step (ui (run_events fresh_world
              [PhoneInput "9876543210"; PhoneSubmit challenge_issued;
               CodeInput "123456"; CodeSubmit code_accepted])) = StepProfile /\
  idToken (ui (run_events fresh_world
              [PhoneInput "9876543210"; PhoneSubmit challenge_issued;
               CodeInput "123456"; CodeSubmit code_accepted])) <> None.
Proof.
  split; [reflexivity |].
  apply (proj1 (proj1 (token_exactly_in_profile
           [PhoneInput "9876543210"; PhoneSubmit challenge_issued;
            CodeInput "123456"; CodeSubmit code_accepted]))).
  reflexivity.
Defined.




End FlowTheorems.

(** ** The widget across callbacks and remounts *)

Section WidgetLifecycle.
Import SignUpPage.

Lemma not_live_after_clear (v : RecaptchaVerifier) (l : list RecaptchaVerifier) :
  existsb (verifier_eqb v) (filter (fun x => negb (verifier_eqb x v)) l) = false.
Proof.
  induction l as [| x rest IH]; [reflexivity |].
  cbn [filter]. destruct (verifier_eqb x v) eqn:Hx; cbn [negb]; [exact IH |].
  cbn [existsb]. rewrite IH.
  unfold verifier_eqb in *. rewrite Nat.eqb_sym, Hx. reflexivity.
Qed.

(** X14: the unmount cleanup clears the held instance but keeps holding it.
    After leaving the page and coming back, the flow starts afresh while
    [window.recaptchaVerifier] still names the cleared instance, so the next
    [setupRecaptcha] begins by calling [clear()] on it a second time. *)
Theorem remount_holds_cleared_widget (w : World) (v : RecaptchaVerifier) :
  mounted w = true ->
  recaptchaVerifier w = Some v ->
  ui (run_events w [Unmount (Returns tt); Mount]) = initial /\
  recaptchaVerifier (run_events w [Unmount (Returns tt); Mount]) = Some v /\
  is_live v (run_events w [Unmount (Returns tt); Mount]) = false /\
  (forall env, exists rest,
     snd (run (setupRecaptcha env) (run_events w [Unmount (Returns tt); Mount])) =
       RecaptchaClear v :: rest).
Proof.
  destruct w as [u stored alive count m]. cbn [mounted recaptchaVerifier].
  intros -> ->. split; [reflexivity |]. split; [reflexivity |]. split.
  - unfold is_live. cbn. apply not_live_after_clear.
  - intros [[[] | ec] [[] | en]]; eexists; reflexivity.
Qed.

Lemma remount_holds_cleared_widget_witness :
  mounted at_code_step = true /\
  recaptchaVerifier at_code_step = Some (mkVerifier 0) /\
  is_live (mkVerifier 0) (run_events at_code_step [Unmount (Returns tt); Mount]) = false /\
  recaptchaVerifier (run_events at_code_step [Unmount (Returns tt); Mount]) =
    Some (mkVerifier 0).
Proof.
  split; [reflexivity |]. split; [reflexivity |].
  destruct (remount_holds_cleared_widget at_code_step (v := mkVerifier 0)
              eq_refl eq_refl) as (_ & Hheld & Hdead & _).
  split; [exact Hdead | exact Hheld].
Defined.

(** X15: when a live widget reports expiry or an error, the page forgets
    the reference and tears nothing down: the live instances and the flow's
    cells are as before. The unmount cleanup that follows calls no
    [clear()], so those instances outlive the page. *)
Theorem callback_forgets_without_clearing (w : World) (v : RecaptchaVerifier)
  (ev : Event) :
  is_live v w = true ->
  (ev = RecaptchaExpired v \/ exists e, ev = RecaptchaError v e) ->
  recaptchaVerifier (dispatch w ev) = None /\
  live (dispatch w ev) = live w /\
  ui (dispatch w ev) = ui w /\
  (forall result,
     snd (run (handle (Unmount result) (dispatch w ev)) (dispatch w ev)) = [] /\
     live (dispatch (dispatch w ev) (Unmount result)) = live w).
Proof.
  intros Hlive Hev.
  assert (Hw : dispatch w ev = set_recaptchaVerifier None w).
  { destruct Hev as [-> | (e & ->)]; unfold dispatch, handle; rewrite Hlive;
      reflexivity. }
  rewrite Hw. destruct w as [u stored alive count m].
  split; [reflexivity |]. split; [reflexivity |]. split; [reflexivity |].
  intros result. destruct m; split; reflexivity.
Qed.

Lemma callback_forgets_without_clearing_witness :
  is_live (mkVerifier 0) at_code_step = true /\
  recaptchaVerifier (dispatch at_code_step (RecaptchaExpired (mkVerifier 0))) = None /\
  live (dispatch at_code_step (RecaptchaExpired (mkVerifier 0))) = live at_code_step.
Proof.
  split; [reflexivity |].
  destruct (callback_forgets_without_clearing at_code_step
              (v := mkVerifier 0) (ev := RecaptchaExpired (mkVerifier 0))
              eq_refl (or_introl eq_refl)) as (Hnone & Hlive & _).
  split; [exact Hnone | exact Hlive].
Defined.

End WidgetLifecycle.

(** ** Phone numbers and what is typed *)

Section Numbers.
Import SignUpPage.

Lemma replace_non_digits_app (a b : string) :
  replace_non_digits (a ++ b) = (replace_non_digits a ++ replace_non_digits b)%string.
Proof.
  induction a as [| c rest IH]; [reflexivity |].
  cbn [String.append replace_non_digits].
  destruct (is_digit c); cbn [String.append]; rewrite IH; reflexivity.
Qed.

Lemma replace_non_digits_shorter (s : string) :
  String.length (replace_non_digits s) <= String.length s.
Proof.
  induction s as [| c rest IH]; [apply le_n |].
  cbn [replace_non_digits String.length].
  destruct (is_digit c); cbn [String.length]; lia.
Qed.

(** X16: deleting the non-digits keeps a string of digits as it is, is
    idempotent, never lengthens, and works piecewise: the digits of a
    concatenation are the digits of its parts, in order. *)
Theorem sanitizer_laws :
  (forall s, all_digits s = true -> replace_non_digits s = s) /\
  (forall s, replace_non_digits (replace_non_digits s) = replace_non_digits s) /\
  (forall s, String.length (replace_non_digits s) <= String.length s) /\
  (forall a b, replace_non_digits (a ++ b) =
               (replace_non_digits a ++ replace_non_digits b)%string).
Proof.
  split; [exact replace_non_digits_fixes_digits |].
  split; [| split; [exact replace_non_digits_shorter | exact replace_non_digits_app]].
  intros s. apply replace_non_digits_fixes_digits, replace_non_digits_all_digits.
Qed.

Lemma sanitizer_laws_witness :
  all_digits "9876543210" = true /\
  replace_non_digits "9876543210" = "9876543210"%string.
Proof.
  split; [reflexivity |].
  apply (proj1 sanitizer_laws "9876543210"%string). reflexivity.
Defined.

Lemma formattedPhone_starts_with_plus (p : string) :
  startsWith (formattedPhone p) "+" = true.
Proof.
  unfold formattedPhone. destruct (startsWith p "+") eqn:Hp; [exact Hp |].
  unfold startsWith. cbn [String.append prefix].
  destruct (Ascii.ascii_dec "+"%char "+"%char) as [_ | Hne];
    [reflexivity | contradiction Hne; reflexivity].
Qed.

(** X17: whatever is entered, the normalized number starts with "+", and
    normalizing a normalized number changes nothing. *)
Theorem normalization_is_idempotent (p : string) :
  startsWith (formattedPhone p) "+" = true /\
  formattedPhone (formattedPhone p) = formattedPhone p.
Proof.
  split; [apply formattedPhone_starts_with_plus |].
  unfold formattedPhone at 1. rewrite formattedPhone_starts_with_plus.
  reflexivity.
Qed.

Lemma digits_run (evs : list Event) : digits_only (run_events fresh_world evs).
Proof.
  apply (run_events_invariant (P := digits_only) (fun _ => true)).
  - intros w0 ev _. apply handle_keeps_digits.
  - induction evs as [| ev rest IH]; [reflexivity | exact IH].
  - split; reflexivity.
Qed.

(** Every challenge [sendCode] requests is for the normalized number. *)
Lemma sendCode_requests_formatted (snap : State) (env : SendCodeEnv) (w : World)
  (t : list Effect) (number : string) (verifier : option RecaptchaVerifier) :
  In (SignInWithPhoneNumber number verifier)
     (snd (sendCode snap env w t)) ->
  In (SignInWithPhoneNumber number verifier) t \/
  number = formattedPhone (phone snap).
Proof.
  destruct env as [[wc wn] ws]. destruct w as [u stored alive count m].
  destruct stored, wc, wn, ws;
    cbv -[formattedPhone String.append or_else In app];
    rewrite <- ?app_assoc; rewrite ?in_app_iff; cbn [In];
    intros Hin; decompose [or] Hin; clear Hin;
    try (left; assumption); try discriminate; try contradiction;
    match goal with
    | H : SignInWithPhoneNumber _ _ = SignInWithPhoneNumber _ _ |- _ =>
        injection H as <- _; right; reflexivity
    end.
Qed.

(** X18: along any run from the fresh page, a challenge is only ever
    requested for "+1" followed by the digits in the phone cell, which is
    not empty: the branch that keeps a number starting with "+" is never
    taken. *)
Theorem challenges_use_default_prefix (evs : list Event) (env : SendCodeEnv)
  (number : string) (verifier : option RecaptchaVerifier) :
  In (SignInWithPhoneNumber number verifier)
     (snd (run (handle (PhoneSubmit env) (run_events fresh_world evs))
             (run_events fresh_world evs))) ->
  number = ("+1" ++ phone (ui (run_events fresh_world evs)))%string /\
  all_digits (phone (ui (run_events fresh_world evs))) = true /\
  phone (ui (run_events fresh_world evs)) <> ""%string.
Proof.
  destruct (digits_run evs) as [Hdigits _].
  pose proof (all_digits_no_plus _ Hdigits) as Hplus.
  set (w := run_events fresh_world evs) in *.
  unfold handle, phoneFormSubmit.
  destruct (in_step StepPhone w); [| intros []].
  destruct (loading (ui w)); [intros [] |].
  destruct (phone (ui w)) as [| ch rest] eqn:Hph; [intros [] |].
  cbn [negb andb required nonempty when]. unfold run.
  intros Hin.
  assert (Hsnd : In (SignInWithPhoneNumber number verifier)
                    (snd (sendCode (ui w) env w []))).
  { destruct (sendCode (ui w) env w []) as [[r w'] t']. exact Hin. }
  apply sendCode_requests_formatted in Hsnd as [[] | Hnum].
  rewrite Hph in Hnum. cbn [phone] in Hnum.
  split; [| split; [exact Hdigits | discriminate]].
  rewrite Hnum. unfold formattedPhone. rewrite Hplus. reflexivity.
Qed.

Lemma challenges_use_default_prefix_witness :
  In (SignInWithPhoneNumber "+19876543210" (Some (mkVerifier 0)))
     (snd (run (handle (PhoneSubmit challenge_issued)
                  (run_events fresh_world [PhoneInput "(987) 654-3210"]))
             (run_events fresh_world [PhoneInput "(987) 654-3210"]))) /\
  "+19876543210"%string =
    ("+1" ++ phone (ui (run_events fresh_world [PhoneInput "(987) 654-3210"])))%string.
Proof.
  assert (H : In (SignInWithPhoneNumber "+19876543210" (Some (mkVerifier 0)))
     (snd (run (handle (PhoneSubmit challenge_issued)
                  (run_events fresh_world [PhoneInput "(987) 654-3210"]))
             (run_events fresh_world [PhoneInput "(987) 654-3210"]))))
    by (vm_compute; tauto).
  split; [exact H |].
  exact (proj1 (challenges_use_default_prefix [PhoneInput "(987) 654-3210"]
                  challenge_issued _ _ H)).
Defined.

End Numbers.

(** ** What the code step tells the user *)

Section CodeStepHint.
Import SignUpPage.

(** X19: the code form names a number the code was not sent to. After any
    run, the hint of a displayed code form reads "+91" before the phone
    cell, while a challenge for that cell is requested for "+1" before it;
    the two texts are never the same. *)
Theorem code_hint_names_another_number (evs : list Event)
  (value hint submit : string) (disabled : bool) :
  In (PageView.CodeForm value hint submit disabled)
     (PageView.forms (PageView.render (ui (run_events fresh_world evs)))) ->
  hint = ("We've sent a verification code to +91"
          ++ phone (ui (run_events fresh_world evs)))%string /\
  hint <> ("We've sent a verification code to "
           ++ formattedPhone (phone (ui (run_events fresh_world evs))))%string.
Proof.
  destruct (digits_run evs) as [Hdigits _].
  pose proof (all_digits_no_plus _ Hdigits) as Hplus.
  unfold PageView.render. cbn [PageView.forms].
  destruct (step (ui (run_events fresh_world evs))); cbn;
    intros [Hin | []]; try discriminate Hin.
  injection Hin as _ <- _ _. split; [reflexivity |].
  unfold formattedPhone. rewrite Hplus. cbn. intros H. discriminate H.
Qed.

Lemma code_hint_names_another_number_witness :
  In (PageView.CodeForm "" "We've sent a verification code to +919876543210"
        "Verify Code" false)
     (PageView.forms (PageView.render (ui (run_events fresh_world
        [PhoneInput "9876543210"; PhoneSubmit challenge_issued])))) /\
  "We've sent a verification code to +919876543210"%string <>
    ("We've sent a verification code to "
     ++ formattedPhone (phone (ui (run_events fresh_world
          [PhoneInput "9876543210"; PhoneSubmit challenge_issued]))))%string.
Proof.
  assert (H : In (PageView.CodeForm "" "We've sent a verification code to +919876543210"
        "Verify Code" false)
     (PageView.forms (PageView.render (ui (run_events fresh_world
        [PhoneInput "9876543210"; PhoneSubmit challenge_issued])))))
    by (vm_compute; left; reflexivity).
  split; [exact H |].
  exact (proj2 (code_hint_names_another_number
                  [PhoneInput "9876543210"; PhoneSubmit challenge_issued]
                  _ _ _ _ H)).
Defined.

End CodeStepHint.

(** ** [ProfileForm] *)

Section ProfileFormFacts.
Import SignUpPage.
Import ProfileForm.

Lemma field_eqb_eq (a b : FieldName) : field_eqb a b = true <-> a = b.
Proof. destruct a, b; cbn; split; intros H; try reflexivity; discriminate H. Qed.

(** X20: [handleChange] writes the named input and no other; writing an
    input twice keeps the later value, and writes to different inputs can
    be made in either order. *)
Theorem handleChange_updates_one_field :
  (forall f value form, get f (handleChange f value form) = value) /\
  (forall f g value form, f <> g ->
     get g (handleChange f value form) = get g form) /\
  (forall f v1 v2 form,
     handleChange f v2 (handleChange f v1 form) = handleChange f v2 form) /\
  (forall f g v1 v2 form, f <> g ->
     handleChange f v1 (handleChange g v2 form) =
     handleChange g v2 (handleChange f v1 form)).
Proof.
  split; [| split; [| split]].
  - intros f value form. destruct f; reflexivity.
  - intros f g value form Hne. destruct f, g; try reflexivity;
      contradiction Hne; reflexivity.
  - intros f v1 v2 form. destruct f; reflexivity.
  - intros f g v1 v2 form Hne. destruct f, g; try reflexivity;
      contradiction Hne; reflexivity.
Qed.

Lemma handleChange_updates_one_field_witness :
  FName <> FAddress /\
  get FAddress (handleChange FName "Jane" ProfileForm.initial) =
    get FAddress ProfileForm.initial.
Proof.
  split; [discriminate |].
  apply (proj1 (proj2 handleChange_updates_one_field)). discriminate.
Defined.

Lemma get_after_change (f g : FieldName) (value : string) (form : FormData) :
  get f (handleChange g value form) =
    if field_eqb g f then value else get f form.
Proof. destruct f, g; reflexivity. Qed.

(** X21: after any sequence of change events, each input of the form holds
    the last value typed into it, and its starting value if nothing was
    typed there. *)
Theorem form_holds_last_typed (changes : list (FieldName * string))
  (form : FormData) (f : FieldName) :
  get f (typed changes form) =
    match last_typed f changes with
    | Some value => value
    | None => get f form
    end.
Proof.
  revert form. induction changes as [| [g v] rest IH]; intros form;
    [reflexivity |].
  change (typed ((g, v) :: rest) form) with (typed rest (handleChange g v form)).
  rewrite IH. cbn [last_typed].
  destruct (last_typed f rest); [reflexivity |].
  rewrite get_after_change. destruct (field_eqb g f); reflexivity.
Qed.



End ProfileFormFacts.

(** ** The dashboard over time *)

Section DashboardRunFacts.
Import Dashboard.
Import DashboardRuns.

Lemma dispatch_keeps_known (s : State) (ev : Event) :
  dashboard_error_known s /\ dashboard_profile_placeholder s ->
  dashboard_error_known (dispatch s ev) /\
  dashboard_profile_placeholder (dispatch s ev).
Proof.
  intros [Herr Hprof]. destruct s as [up ld er].
  unfold dashboard_error_known, dashboard_profile_placeholder in *.
  cbn [error userProfile] in *.
  destruct ev as [[u |] | [[] | e] | ].
  - split; [exact Herr |]. cbn. intros p Hp. injection Hp as <-.
    repeat split.
  - split; assumption.
  - unfold dispatch, handle, offers, render. cbn [loading error userProfile].
    destruct ld; [split; assumption |].
    destruct er as [[| c msg] |]; cbn; split; assumption.
  - unfold dispatch, handle, offers, render. cbn [loading error userProfile].
    destruct ld; [split; assumption |].
    destruct er as [[| c msg] |]; cbn; split;
      first [assumption | right; reflexivity].
  - unfold dispatch, handle, offers, render. cbn [loading error userProfile].
    destruct ld; [split; assumption |].
    destruct er as [[| c msg] |]; cbn; split;
      first [assumption | left; reflexivity | intros p Hp; discriminate Hp].
Qed.

Lemma run_keeps_known (evs : list Event) (s : State) :
  dashboard_error_known s /\ dashboard_profile_placeholder s ->
  dashboard_error_known (run_events s evs) /\
  dashboard_profile_placeholder (run_events s evs).
Proof.
  revert s. induction evs as [| ev rest IH]; intros s H; [exact H |].
  cbn [run_events fold_left]. apply IH, dispatch_keeps_known, H.
Qed.

(** X23: whatever the provider reports and whatever is clicked, the
    dashboard's error is absent or 'Failed to sign out' (the message of a
    failed profile load is never set), and the profile it shows is the
    placeholder: only the email comes from the user. *)
Theorem dashboard_shows_placeholder (evs : list Event) :
  (error (run_events initial evs) = None \/
   error (run_events initial evs) = Some "Failed to sign out"%string) /\
  error (run_events initial evs) <> Some "Failed to load user profile"%string /\
  (forall p, userProfile (run_events initial evs) = Some p ->
     name p = "John Doe"%string /\ address p = "123 Main St"%string /\
     vehicle p = "Toyota Camry"%string /\ kids p = "2"%string).
Proof.
  destruct (run_keeps_known evs (s := initial)) as [Herr Hprof].
  { split; [left; reflexivity | intros p Hp; discriminate Hp]. }
  split; [exact Herr |]. split; [| exact Hprof].
  destruct Herr as [-> | ->]; discriminate.
Qed.

Lemma dashboard_shows_placeholder_witness :
  userProfile (run_events initial
                 [AuthStateChanged (Some (mkUser (Some "jane@example.org"%string)))]) =
    Some (mkProfile "John Doe" "jane@example.org" "123 Main St" "Toyota Camry" "2") /\
  name (mkProfile "John Doe" "jane@example.org" "123 Main St" "Toyota Camry" "2") =
    "John Doe"%string.
Proof.
  split; [reflexivity |].
  apply (proj2 (proj2 (dashboard_shows_placeholder
           [AuthStateChanged (Some (mkUser (Some "jane@example.org"%string)))]))
           (mkProfile "John Doe" "jane@example.org" "123 Main St" "Toyota Camry" "2")).
  reflexivity.
Defined.

(** X24: until the provider reports a signed-in user, the dashboard stays
    in its initial state and shows the spinner: a visitor who is redirected
    to sign-in never sees a profile, an error or a button. *)
Theorem spinner_until_user_reported (evs : list Event) :
  forallb (fun ev => negb (reports_user ev)) evs = true ->
  run_events initial evs = initial /\
  render (run_events initial evs) = Spinner /\
  controls (render (run_events initial evs)) = [].
Proof.
  intros Hevs.
  assert (H : run_events initial evs = initial).
  { induction evs as [| ev rest IH]; [reflexivity |].
    cbn [forallb] in Hevs. apply andb_true_iff in Hevs as [Hev Hrest].
    cbn [run_events fold_left].
    assert (Hstep : dispatch initial ev = initial)
      by (destruct ev as [[u |] | [[] | e] | ];
          [discriminate Hev | reflexivity ..]).
    rewrite Hstep. exact (IH Hrest). }
  rewrite H. repeat split.
Qed.

Lemma spinner_until_user_reported_witness :
  forallb (fun ev => negb (reports_user ev))
    [AuthStateChanged None; SignOutClick (Returns tt); RetryClick] = true /\
  render (run_events initial
            [AuthStateChanged None; SignOutClick (Returns tt); RetryClick]) = Spinner.
Proof.
  split; [reflexivity |].
  apply (spinner_until_user_reported
           [AuthStateChanged None; SignOutClick (Returns tt); RetryClick]).
  reflexivity.
Defined.

(** X25: the error panel is left by Retry only. While it is shown, neither
    a report from the provider nor a sign-out click changes the view; Retry
    restarts the page, which shows the spinner. *)
Theorem error_panel_until_retry (s : State) (msg : string) :
  render s = ErrorPanel msg ->
  (forall ev, ev <> RetryClick -> render (dispatch s ev) = ErrorPanel msg) /\
  dispatch s RetryClick = initial /\
  render (dispatch s RetryClick) = Spinner.
Proof.
  destruct s as [up ld er]. unfold render. cbn [loading error userProfile].
  destruct ld; [discriminate |].
  destruct er as [[| c rest] |]; try discriminate.
  intros H. injection H as <-. split; [| split; reflexivity].
  intros ev Hev. destruct ev as [[u |] | [[] | e] | ]; try reflexivity.
  contradiction Hev. reflexivity.
Qed.

Lemma error_panel_until_retry_witness :
  render (dispatch signed_in (SignOutClick (Throws (mkError "offline")))) =
    ErrorPanel "Failed to sign out" /\
  render (dispatch (dispatch signed_in (SignOutClick (Throws (mkError "offline"))))
            (AuthStateChanged None)) = ErrorPanel "Failed to sign out".
Proof.
  split; [reflexivity |].
  apply (proj1 (error_panel_until_retry
                  (dispatch signed_in (SignOutClick (Throws (mkError "offline"))))
                  (msg := "Failed to sign out"%string) eq_refl)).
  discriminate.
Defined.

(** X26: [handleSignOut] always asks the provider first, and navigates to
    the landing page exactly when that call resolves; it then leaves the
    dashboard's state as it was. *)
Theorem sign_out_navigates_when_resolved (s : State) (result : Outcome unit) :
  (exists rest, snd (run (handleSignOut result) s) = SignOut :: rest) /\
  (In (RouterPush "/") (snd (run (handleSignOut result) s)) <->
   result = Returns tt) /\
  (result = Returns tt -> fst (run (handleSignOut result) s) = s).
Proof.
  destruct result as [[] | e].
  - split; [eexists; reflexivity |]. split; [| reflexivity].
    split; [reflexivity |]. intros _. right. left. reflexivity.
  - split; [eexists; reflexivity |]. split; [| discriminate].
    split; [| discriminate].
    change (snd (run (handleSignOut (Throws e)) s)) with [SignOut].
    intros [H | []]. discriminate H.
Qed.

Lemma sign_out_navigates_when_resolved_witness :
  In (RouterPush "/") (snd (run (handleSignOut (Returns tt)) signed_in)).
Proof.
  apply (proj2 (proj1 (proj2 (sign_out_navigates_when_resolved signed_in (Returns tt))))).
  reflexivity.
Defined.

(** X27: when the provider reports a user and no error is pending, the
    dashboard shows the profile page with that user's email, and with an
    empty email when the user has none. *)
Theorem signed_in_user_sees_profile (s : State) (u : User) :
  error s = None ->
  render (dispatch s (AuthStateChanged (Some u))) =
    ProfilePage (Some (mkProfile "John Doe"
                         (match user_email u with
                          | Some e => e
                          | None => ""%string
                          end)
                         "123 Main St" "Toyota Camry" "2")) /\
  snd (run (handle (AuthStateChanged (Some u)) s) s) = [].
Proof.
  destruct s as [up ld er]. cbn [error]. intros ->. split; reflexivity.
Qed.

Lemma signed_in_user_sees_profile_witness :
  error initial = None /\
  render (dispatch initial (AuthStateChanged (Some (mkUser None)))) =
    ProfilePage (Some (mkProfile "John Doe" "" "123 Main St" "Toyota Camry" "2")).
Proof.
  split; [reflexivity |].
  apply (signed_in_user_sees_profile initial (mkUser None)). reflexivity.
Defined.

End DashboardRunFacts.
